(** * News Analyzer front end: the query / filter / ingest orchestration of
      [frontend/src/App.js], embedded and verified.

    The component [App] keeps six pieces of React state, talks to the backend
    through [fetch], and renders the articles it received.  The embedding
    follows the source:

    - [JS]      the fragment of JavaScript values and operators the component
                applies to the JSON it receives (truthiness, [||], property
                reads, [Object.keys], ...);
    - [Async]   an [async] function as a tree of setter calls and [await]s,
                with [try]/[catch];
    - [run]     one operation run to completion against a backend;
    - [step]    the event loop: handlers and continuations interleaved;
    - [Node]    React elements, for the parts of the JSX the properties
                below talk about.

    Line numbers are those of [App.js].  Calls of [console.log] are left
    out, except where evaluating their arguments can throw. *)

From Stdlib Require Import Floats Ascii.
From stdpp Require Import gmap strings list pretty.

Local Open Scope string_scope.
Local Open Scope list_scope.
Local Set Warnings "-register-all,-clear-no-such-hyp".

(** ** JavaScript values *)

Module JS.

(** What [JSON.parse] can produce, and [undefined] (the value of a missing
    property).  Numbers are IEEE 754 doubles.  The fields of an object are
    listed in the order of the JSON text; a later duplicate wins, as it
    does in [JSON.parse]. *)
Inductive JsVal : Type :=
| VUndefined
| VNull
| VBool (b : bool)
| VNumber (x : float)
| VString (s : string)
| VArray (items : list JsVal)
| VObject (fields : list (string * JsVal)).

(** The exceptions that can reach a [catch] of the component. *)
Inductive Exn : Type :=
| TypeError        (* reading a property of null, a call of a non-function, ... *)
| SyntaxError      (* response.json() on a body that is not JSON *)
| NetworkError.    (* fetch() rejecting *)

(** An expression either yields a value or throws. *)
Definition Outcome (A : Type) : Type := Exn + A.
Abbreviation Ok a := (@inr Exn _ a) (only parsing).
Abbreviation Raise e := (@inl Exn _ e) (only parsing).

Definition obind {A B} (m : Outcome A) (f : A -> Outcome B) : Outcome B :=
  match m with
  | inl e => inl e
  | inr a => f a
  end.

(** ToBoolean. *)
Definition truthy (v : JsVal) : bool :=
  match v with
  | VUndefined | VNull => false
  | VBool b => b
  | VNumber x => negb (PrimFloat.eqb x 0%float || PrimFloat.is_nan x)
  | VString s => negb (String.eqb s "")
  | VArray _ | VObject _ => true
  end.

(** [a || b], both operands already evaluated (the right operand is a
    literal wherever the component uses it). *)
Definition js_or (a b : JsVal) : JsVal := if truthy a then a else b.

(** The own property [k] of a parsed object: the last field named [k]. *)
Fixpoint field (k : string) (fields : list (string * JsVal)) : option JsVal :=
  match fields with
  | [] => None
  | (k', v) :: rest =>
      match field k rest with
      | Some w => Some w
      | None => if String.eqb k k' then Some v else None
      end
  end.

(** [v.k] for an own data property [k] of a parsed object.  The component
    reads [results], [error], [summary], [entities], [name], ...: none of
    them is defined on [Object.prototype], [Array.prototype] or the wrappers
    of the primitives, so on anything but an object the read is
    [undefined].  ([length] is not read through [get], see
    [length_positive].) *)
Definition get (v : JsVal) (k : string) : Outcome JsVal :=
  match v with
  | VUndefined | VNull => Raise TypeError
  | VObject fs => Ok (default VUndefined (field k fs))
  | VArray _ | VString _ | VBool _ | VNumber _ => Ok VUndefined
  end.

Definition char_at (s : string) (i : nat) : JsVal :=
  match String.get i s with
  | Some c => VString (String c EmptyString)
  | None => VUndefined
  end.

(** [v[0]].  (Of a string, its first character: what the component does
    with it only depends on its not being [null].) *)
Definition first (v : JsVal) : Outcome JsVal :=
  match v with
  | VUndefined | VNull => Raise TypeError
  | VObject fs => Ok (default VUndefined (field "0" fs))
  | VArray l => Ok (default VUndefined (head l))
  | VString s => Ok (char_at s 0)
  | VBool _ | VNumber _ => Ok VUndefined
  end.

(** ToNumber.  On strings, arrays and objects it is the runtime's
    [coerce] (StringToNumber, or ToPrimitive first, which can throw when
    the parsed object shadows [valueOf] and [toString]). *)
Definition to_number (coerce : JsVal -> Outcome float) (v : JsVal) : Outcome float :=
  match v with
  | VUndefined => Ok nan
  | VNull => Ok 0%float
  | VBool b => Ok (if b then 1%float else 0%float)
  | VNumber x => Ok x
  | VString _ | VArray _ | VObject _ => coerce v
  end.

(** [v.length > 0].  The length of an array or a string is an exact
    integer; an object has the [length] it was given, if any, and a number
    or boolean has none ([undefined > 0] is false). *)
Definition length_positive (coerce : JsVal -> Outcome float) (v : JsVal) : Outcome bool :=
  match v with
  | VUndefined | VNull => Raise TypeError
  | VArray l => Ok (0 <? length l)%nat
  | VString s => Ok (0 <? String.length s)%nat
  | VBool _ | VNumber _ => Ok false
  | VObject fs =>
      match field "length" fs with
      | None => Ok false
      | Some len => obind (to_number coerce len) (fun x => Ok (PrimFloat.ltb 0%float x))
      end
  end.

(** [Object.keys(v)] throws on [null] and [undefined] and nowhere else;
    its result is only ever logged. *)
Definition object_keys (v : JsVal) : Outcome unit :=
  match v with
  | VUndefined | VNull => Raise TypeError
  | _ => Ok tt
  end.

(** [v.k] where the read does not throw. *)
Definition read (v : JsVal) (k : string) : JsVal :=
  match get v k with
  | inr x => x
  | inl _ => VUndefined
  end.

Definition nullish (v : JsVal) : bool :=
  match v with
  | VUndefined | VNull => true
  | _ => false
  end.

(** A value with no own property [k]. *)
Definition lacks (k : string) (v : JsVal) : Prop :=
  match v with
  | VObject fs => field k fs = None
  | _ => True
  end.

End JS.
Export JS.

(** ** The state of the component and the requests it sends *)

(** The six [useState] cells of [App].  [filters] is the object
    [{language, sentiment, bias}], a map from field names to the value of
    the corresponding [<select>]. *)
Record UI : Type := mkUI {
  articles : JsVal;
  loading : bool;
  searchQuery : string;
  filters : gmap string string;
  ingesting : bool;
  ingestStatus : JsVal
}.

Definition initial_filters : gmap string string :=
  <["language" := ""]> (<["sentiment" := ""]> (<["bias" := ""]> ∅)).

(** The state at mount: the arguments of the [useState] calls. *)
Definition initial_ui : UI :=
  {| articles := VArray [];
     loading := false;
     searchQuery := "";
     filters := initial_filters;
     ingesting := false;
     ingestStatus := VNull |}.

(** A call of one of the six setters. *)
Inductive Setter : Type :=
| setArticles (v : JsVal)
| setLoading (b : bool)
| setSearchQuery (s : string)
| setFilters (f : gmap string string)
| setIngesting (b : bool)
| setIngestStatus (v : JsVal).

Definition apply_setter (s : Setter) (u : UI) : UI :=
  match s with
  | setArticles v =>
      mkUI v (loading u) (searchQuery u) (filters u) (ingesting u) (ingestStatus u)
  | setLoading b =>
      mkUI (articles u) b (searchQuery u) (filters u) (ingesting u) (ingestStatus u)
  | setSearchQuery q =>
      mkUI (articles u) (loading u) q (filters u) (ingesting u) (ingestStatus u)
  | setFilters f =>
      mkUI (articles u) (loading u) (searchQuery u) f (ingesting u) (ingestStatus u)
  | setIngesting b =>
      mkUI (articles u) (loading u) (searchQuery u) (filters u) b (ingestStatus u)
  | setIngestStatus v =>
      mkUI (articles u) (loading u) (searchQuery u) (filters u) (ingesting u) v
  end.

Inductive Method : Type := GET | POST.

#[export] Instance Method_eq_dec : EqDecision Method.
Proof. solve_decision. Defined.

(** A call of [fetch]: the method, the URL up to [?], and the query string
    as the list of pairs a [URLSearchParams] holds (its [toString] percent
    encodes them, the server decodes them back). *)
Record Request : Type := mkRequest {
  method : Method;
  url : string;
  params : list (string * string)
}.

(** What [fetch] resolves to.  [body] is what [response.json()] gives:
    the parsed body, or nothing when the body is not JSON. *)
Record Response : Type := mkResponse { body : option JsVal }.

Definition json_of (r : Response) : Outcome JsVal :=
  match body r with
  | Some v => Ok v
  | None => Raise SyntaxError
  end.

(** ** Asynchronous functions *)

(** The body of an [async] function: it returns, throws, calls a setter,
    or awaits [fetch(req)] or [response.json()], which hand the
    continuation a value or an exception (a rejected promise throws at the
    [await]). *)
Inductive Async (A : Type) : Type :=
| Ret (a : A)
| Throw (e : Exn)
| Call (s : Setter) (k : Async A)
| AwaitFetch (req : Request) (k : Outcome Response -> Async A)
| AwaitJson (resp : Response) (k : Outcome JsVal -> Async A).

Arguments Ret {A} a.
Arguments Throw {A} e.
Arguments Call {A} s k.
Arguments AwaitFetch {A} req k.
Arguments AwaitJson {A} resp k.

Fixpoint bind {A B} (m : Async A) (f : A -> Async B) : Async B :=
  match m with
  | Ret a => f a
  | Throw e => Throw e
  | Call s k => Call s (bind k f)
  | AwaitFetch req k => AwaitFetch req (fun r => bind (k r) f)
  | AwaitJson resp k => AwaitJson resp (fun r => bind (k r) f)
  end.

(** [try { m } catch (error) { handler error }]. *)
Fixpoint try_catch {A} (m : Async A) (handler : Exn -> Async A) : Async A :=
  match m with
  | Ret a => Ret a
  | Throw e => handler e
  | Call s k => Call s (try_catch k handler)
  | AwaitFetch req k => AwaitFetch req (fun r => try_catch (k r) handler)
  | AwaitJson resp k => AwaitJson resp (fun r => try_catch (k r) handler)
  end.

#[export] Instance Async_ret : MRet Async := @Ret.
#[export] Instance Async_bind : MBind Async := fun A B f m => bind m f.
#[export] Instance Outcome_ret : MRet Outcome := fun A a => Ok a.
#[export] Instance Outcome_bind : MBind Outcome := fun A B f m => obind m f.

(** A synchronous expression inside an [async] function. *)
Definition eval {A} (o : Outcome A) : Async A :=
  match o with
  | inl e => Throw e
  | inr a => Ret a
  end.

Definition call (s : Setter) : Async unit := Call s (Ret tt).
Definition fetch (req : Request) : Async Response := AwaitFetch req eval.
Definition json (resp : Response) : Async JsVal := AwaitJson resp eval.

(** ** The component *)

Section App.

(** The runtime's ToNumber on strings, arrays and objects (see
    [JS.to_number]), and [Number.prototype.toFixed]. *)
Variable coerce : JsVal -> Outcome float.
Variable toFixed : float -> nat -> string.

(** Lines 20-25: the [URLSearchParams] of a search.  [append] adds a pair
    at the end; a query or filter value is appended when it is truthy, that
    is, when it is a non-empty string. *)
Definition append (k v : string) (params : list (string * string)) : list (string * string) :=
  params ++ [(k, v)].

Definition nonempty (v : option string) : bool :=
  match v with
  | Some s => negb (String.eqb s "")
  | None => false
  end.

Definition append_if (k : string) (v : option string) (params : list (string * string))
  : list (string * string) :=
  if nonempty v then append k (default "" v) params else params.

Definition search_params (query : string) (currentFilters : gmap string string)
  : list (string * string) :=
  let params := [] in
  let params := append_if "q" (Some query) params in
  let params := append_if "language" (currentFilters !! "language") params in
  let params := append_if "sentiment" (currentFilters !! "sentiment") params in
  let params := append_if "bias" (currentFilters !! "bias") params in
  append "size" "20" params.

Definition search_request (query : string) (currentFilters : gmap string string) : Request :=
  {| method := GET;
     url := "http://localhost:8000/articles/search";
     params := search_params query currentFilters |}.

Definition ingest_request : Request :=
  {| method := POST;
     url := "http://localhost:8000/ingest/run";
     params := [("limit_per_feed", "20")] |}.

(** Lines 35-45: the [console.log] calls print and nothing else, but their
    arguments are evaluated, and the evaluation can throw inside the [try]:
    [data.results] when [data] is [null], and [Object.keys(data.results[0])]
    when the first result is [null] or missing. *)
Definition log_first_article (data : JsVal) : Outcome unit :=
  results ← get data "results";
  if truthy results then
    positive ← length_positive coerce results;
    if (positive : bool) then
      article ← first results;
      _ ← object_keys article;
      _ ← get article "summary";
      _ ← get article "sentiment_overall";
      _ ← get article "bias_overall";
      _ ← get article "sentiment_score";
      _ ← get article "bias_score";
      Ok tt
    else Ok tt
  else Ok tt.

(** Lines 17-53. *)
Definition fetchArticles (query : string) (currentFilters : gmap string string) : Async unit :=
  call (setLoading true);;
  try_catch
    (response ← fetch (search_request query currentFilters);
     data ← json response;
     eval (log_first_article data);;
     results ← eval (get data "results");
     call (setArticles (js_or results (VArray []))))
    (fun error => call (setArticles (VArray [])));;
  call (setLoading false).

Definition ingest_failed : JsVal :=
  VObject [("error", VString "Failed to ingest articles")].

(** Lines 56-77, with the call of line 70 as [refresh]. *)
Definition ingest_with (refresh : Async unit) : Async unit :=
  call (setIngesting true);;
  call (setIngestStatus VNull);;
  try_catch
    (response ← fetch ingest_request;
     data ← json response;
     call (setIngestStatus data);;
     error ← eval (get data "error");
     if negb (truthy error) then refresh else Ret tt)
    (fun error => call (setIngestStatus ingest_failed));;
  call (setIngesting false).

(** The functions below are closures of one render of [App]: [searchQuery]
    and [filters] in their bodies are the values of the render [now] that
    created them. *)
Section Closures.

Variable now : UI.

Definition ingestArticles : Async unit :=
  ingest_with (fetchArticles (searchQuery now) (filters now)).

(** Lines 80-83. *)
Definition handleSearch : Async unit :=
  fetchArticles (searchQuery now) (filters now).

(** Lines 86-91: [{ ...filters, [filterType]: value }], then the search,
    whose promise is dropped. *)
Definition handleFilterChange (filterType value : string) : Async unit :=
  let newFilters := <[filterType := value]> (filters now) in
  call (setFilters newFilters);;
  fetchArticles (searchQuery now) newFilters.

(** Line 134. *)
Definition handleQueryInput (value : string) : Async unit :=
  call (setSearchQuery value).

(** Lines 94-97: [fetchArticles()] takes its default arguments. *)
Definition onMount : Async unit :=
  fetchArticles "" (filters now).

End Closures.

(** ** One operation, run to completion *)

(** The state, and every request sent so far, oldest first. *)
Record World : Type := mkWorld { ui : UI; sent : list Request }.

(** The backend answers a request, given the requests before it, with a
    response, or the fetch rejects. *)
Definition Backend : Type := list Request -> Request -> Outcome Response.

Fixpoint run {A} (net : Backend) (m : Async A) (w : World) : Outcome A * World :=
  match m with
  | Ret a => (Ok a, w)
  | Throw e => (Raise e, w)
  | Call s k => run net k (mkWorld (apply_setter s (ui w)) (sent w))
  | AwaitFetch req k => run net (k (net (sent w) req)) (mkWorld (ui w) (sent w ++ [req]))
  | AwaitJson resp k => run net (k (json_of resp)) w
  end.

(** What a search leaves in [articles], given what its fetch settled
    with: the [try] block of [fetchArticles] read as one expression. *)
Definition stored_results (reply : Outcome Response) : JsVal :=
  match
    (response ← reply;
     data ← json_of response;
     _ ← log_first_article data;
     results ← get data "results";
     Ok (js_or results (VArray [])))
  with
  | inr v => v
  | inl _ => VArray []
  end.

(** The world a search leaves behind. *)
Definition after_search (net : Backend) (query : string) (currentFilters : gmap string string)
    (w : World) : World :=
  let request := search_request query currentFilters in
  {| ui :=
       apply_setter (setLoading false)
         (apply_setter (setArticles (stored_results (net (sent w) request)))
            (apply_setter (setLoading true) (ui w)));
     sent := sent w ++ [request] |}.

(** ** The event loop *)

(** An [async] call suspended at an [await]: what it waits for, and the
    rest of its body. *)
Inductive Task : Type :=
| OnFetch (req : Request) (k : Outcome Response -> Async unit)
| OnJson (resp : Response) (k : Outcome JsVal -> Async unit).

(** Runs a body up to its next [await], or to its end.  [fetch] sends its
    request when it is called, before the [await] suspends.  Nobody awaits
    the promise of a handler, so a body that ends is dropped, whatever
    its result. *)
Fixpoint advance (m : Async unit) (w : World) : World * option Task :=
  match m with
  | Ret _ | Throw _ => (w, None)
  | Call s k => advance k (mkWorld (apply_setter s (ui w)) (sent w))
  | AwaitFetch req k => (mkWorld (ui w) (sent w ++ [req]), Some (OnFetch req k))
  | AwaitJson resp k => (w, Some (OnJson resp k))
  end.

(** Which handler started a suspended call. *)
Inductive Operation : Type := Search | Ingest.

#[export] Instance Operation_eq_dec : EqDecision Operation.
Proof. solve_decision. Defined.

Record System : Type := mkSystem {
  world : World;
  pending : list (Operation * Task)
}.

Definition spawn (op : Operation) (m : Async unit) (s : System) : System :=
  let (w, t) := advance m (world s) in
  mkSystem w (pending s ++ match t with Some t => [(op, t)] | None => [] end).

Definition resume (i : nat) (op : Operation) (m : Async unit) (s : System) : System :=
  let (w, t) := advance m (world s) in
  mkSystem w
    match t with
    | Some t => <[i := (op, t)]> (pending s)
    | None => delete i (pending s)
    end.

(** ** What [App] renders *)

Inductive Handler : Type := onClick_ingestArticles.

(** React elements.  A child is JSX text, a JavaScript value in braces, an
    exact integer in braces (a number computed from array lengths), an
    array of children, or an element; an element without [className] has
    the empty one.  ([key] props are left out.) *)
Inductive Node : Type :=
| Text (s : string)
| Expr (v : JsVal)
| Num (n : nat)
| Items (l : list Node)
| Elem (tag className : string) (children : list Node)
| Button (onClick : Handler) (disabled : bool) (className : string) (children : list Node).

(** What React DOM does with a child that is a value: [undefined], [null]
    and booleans produce nothing, and neither does the empty string; a
    number is printed, [0] included; an array stands for its items (and an
    object is refused). *)
Fixpoint prints_nothing (v : JsVal) : bool :=
  match v with
  | VUndefined | VNull | VBool _ => true
  | VString s => String.eqb s ""
  | VNumber _ => false
  | VArray items => forallb prints_nothing items
  | VObject _ => false
  end.

Fixpoint blank (n : Node) : bool :=
  match n with
  | Text s => String.eqb s ""
  | Expr v => prints_nothing v
  | Items l => forallb blank l
  | Num _ | Elem _ _ _ | Button _ _ _ _ => false
  end.

(** Lines 111-117. *)
Definition ingest_button (u : UI) : Node :=
  Button onClick_ingestArticles (ingesting u)
    ("ingest-btn " ++ (if ingesting u then "loading" else ""))
    [Expr (VString (if ingesting u then "Ingesting..." else "Ingest New Articles"))].

(** Lines 109-118. *)
Definition header (u : UI) : Node :=
  Elem "header" "header" [Elem "h1" "" [Text "News Analyzer"]; ingest_button u].

(** Lines 99-105: while [loading], [App] returns this and nothing else. *)
Definition loading_screen : Node :=
  Elem "div" "loading" [Elem "p" "" [Text "Loading articles..."]].

Definition accepts_click (n : Node) : bool :=
  match n with
  | Button _ disabled _ _ => negb disabled
  | _ => false
  end.

(** The controls are part of the tree only when [App] does not return the
    loading screen. *)
Definition controls_shown (u : UI) : bool := negb (loading u).
Definition can_click_ingest (u : UI) : bool :=
  controls_shown u && accepts_click (ingest_button u).

(** Lines 141-170: the [<option>] values of the three selects. *)
Definition select_options : list (string * list string) :=
  [ ("language", [""; "en"; "hi"]);
    ("sentiment", [""; "positive"; "neutral"; "negative"]);
    ("bias", [""; "neutral"; "left-leaning"; "right-leaning";
              "pro-government"; "anti-government"]) ].

Definition offers (filterType value : string) : Prop :=
  exists values, (filterType, values) ∈ select_options /\ value ∈ values.

(** Lines 230 and 234: [score && ` (${(score * 100).toFixed(1)}%)`]. *)
Definition percentage (score : JsVal) : Outcome JsVal :=
  if truthy score then
    x ← to_number coerce score;
    Ok (VString (" (" ++ toFixed (x * 100)%float 1 ++ "%)"))
  else Ok score.

(** Lines 229-230 and 233-234: the children of the two badges (their
    [className] does not read the scores). *)
Definition sentiment_badge_children (article : JsVal) : Outcome (list Node) :=
  overall ← get article "sentiment_overall";
  score ← get article "sentiment_score";
  shown ← percentage score;
  Ok [Text "Sentiment: "; Expr (js_or overall (VString "Unknown")); Expr shown].

Definition bias_badge_children (article : JsVal) : Outcome (list Node) :=
  overall ← get article "bias_overall";
  score ← get article "bias_score";
  shown ← percentage score;
  Ok [Text "Bias: "; Expr (js_or overall (VString "Unknown")); Expr shown].

(** Lines 258-260. *)
Definition entity_tag (entity : JsVal) : Outcome Node :=
  name ← get entity "name";
  type ← get entity "type";
  Ok (Elem "span" "entity-tag" [Expr name; Text " ("; Expr type; Text ")"]).

(** The tag of an entity that is not [null]. *)
Definition shown_tag (entity : JsVal) : Node :=
  Elem "span" "entity-tag"
    [Expr (read entity "name"); Text " ("; Expr (read entity "type"); Text ")"].

(** [array.map(f)] where [f] can throw. *)
Fixpoint map_each {A B} (f : A -> Outcome B) (l : list A) : Outcome (list B) :=
  match l with
  | [] => Ok []
  | x :: rest =>
      y ← f x;
      ys ← map_each f rest;
      Ok (y :: ys)
  end.

(** Lines 262-266. *)
Definition more_tag (n : nat) : Node :=
  if (6 <? n)%nat
  then Elem "span" "entity-tag more" [Text "+"; Num (n - 6); Text " more"]
  else Expr (VBool false).

(** Lines 253-269.  Past the guard, [entities.slice(0, 6).map(...)] is a
    call of a function only on an array: a string has no [map], and what
    a parsed object has under [slice] is not a function. *)
Definition entities_section (article : JsVal) : Outcome Node :=
  entities ← get article "entities";
  if truthy entities then
    positive ← length_positive coerce entities;
    if (positive : bool) then
      match entities with
      | VArray items =>
          tags ← map_each entity_tag (take 6 items);
          Ok (Elem "div" "entities"
                [ Elem "strong" "" [Text "Key Entities:"];
                  Elem "div" "entity-tags" [Items tags; more_tag (length items)] ])
      | _ => Raise TypeError
      end
    else Ok (Expr (VBool false))
  else Ok (Expr entities).

(** What a user event does: the handler of the current render runs up to
    its first [await]. *)
Definition click_ingest (s : System) : System :=
  spawn Ingest (ingestArticles (ui (world s))) s.
Definition click_search (s : System) : System :=
  spawn Search (handleSearch (ui (world s))) s.
Definition change_filter (filterType value : string) (s : System) : System :=
  spawn Search (handleFilterChange (ui (world s)) filterType value) s.
Definition type_query (value : string) (s : System) : System :=
  spawn Search (handleQueryInput value) s.

(** One turn of the event loop: a user event on a control that is shown
    runs its handler, or what a suspended call waits for arrives.  A fetch
    can settle either way; [response.json()] settles as the response has
    it. *)
Inductive step : System -> System -> Prop :=
| step_click_ingest s :
    can_click_ingest (ui (world s)) = true ->
    step s (click_ingest s)
| step_search s :
    controls_shown (ui (world s)) = true ->
    step s (click_search s)
| step_filter_change s filterType value :
    controls_shown (ui (world s)) = true ->
    offers filterType value ->
    step s (change_filter filterType value s)
| step_query_input s value :
    controls_shown (ui (world s)) = true ->
    step s (type_query value s)
| step_fetch_settles s i op req k reply :
    pending s !! i = Some (op, OnFetch req k) ->
    step s (resume i op (k reply) s)
| step_json_settles s i op resp k :
    pending s !! i = Some (op, OnJson resp k) ->
    step s (resume i op (k (json_of resp)) s).

(** After the first render the effect of lines 94-97 has run. *)
Definition mounted : System :=
  spawn Search (onMount initial_ui) (mkSystem (mkWorld initial_ui []) []).

Inductive reachable : System -> Prop :=
| reachable_mounted : reachable mounted
| reachable_step s s' : reachable s -> step s s' -> reachable s'.

Definition in_flight (op : Operation) (s : System) : nat :=
  length (filter (fun p => p.1 = op) (pending s)).

(** A suspended call that waits for the answer to a POST: the ingest
    request is the only one. *)
Definition awaits_post (p : Operation * Task) : bool :=
  match p.2 with
  | OnFetch req _ => bool_decide (method req = POST)
  | OnJson _ _ => false
  end.

(** Code that never calls [setIngesting] and fetches with GET only. *)
Inductive Quiet {A} : Async A -> Prop :=
| quiet_ret a : Quiet (Ret a)
| quiet_throw e : Quiet (Throw e)
| quiet_call s k : (forall b, s <> setIngesting b) -> Quiet k -> Quiet (Call s k)
| quiet_fetch req k : method req = GET -> (forall r, Quiet (k r)) -> Quiet (AwaitFetch req k)
| quiet_json resp k : (forall r, Quiet (k r)) -> Quiet (AwaitJson resp k).

(** Code that, on every path, calls [setIngesting] once, with [false], as
    the last thing it does. *)
Inductive Closing : Async unit -> Prop :=
| closing_done : Closing (Call (setIngesting false) (Ret tt))
| closing_call s k : (forall b, s <> setIngesting b) -> Closing k -> Closing (Call s k)
| closing_fetch req k : (forall r, Closing (k r)) -> Closing (AwaitFetch req k)
| closing_json resp k : (forall r, Closing (k r)) -> Closing (AwaitJson resp k).

(** Line 76, after whatever came before it. *)
Definition finally_idle {A} (_ : A) : Async unit := call (setIngesting false).

Definition rest_of (P : Async unit -> Prop) (t : Task) : Prop :=
  match t with
  | OnFetch _ k => forall r, P (k r)
  | OnJson _ k => forall r, P (k r)
  end.

(** What holds of the suspended calls between two turns. *)
Definition well_formed (p : Operation * Task) : Prop :=
  match p.1 with
  | Search => rest_of Quiet p.2 /\ awaits_post p = false
  | Ingest => rest_of Closing p.2
  end.

Definition invariant (s : System) : Prop :=
  Forall well_formed (pending s) /\
  in_flight Ingest s = if ingesting (ui (world s)) then 1 else 0.

(** A turn of the event loop chosen by hand: the [i]-th suspended call
    gets its answer ([reply] when it waits for a fetch). *)
Definition settle (i : nat) (reply : Outcome Response) (s : System) : System :=
  match pending s !! i with
  | Some (op, OnFetch _ k) => resume i op (k reply) s
  | Some (op, OnJson resp k) => resume i op (k (json_of resp)) s
  | None => s
  end.

(** ** The status banner *)

(** The runtime's ToString on numbers, arrays and objects. *)
Variable stringify : JsVal -> Outcome string.

(** [`${v}`]: ToString. *)
Definition to_text (v : JsVal) : Outcome string :=
  match v with
  | VString s => Ok s
  | VUndefined => Ok "undefined"
  | VNull => Ok "null"
  | VBool b => Ok (if b then "true" else "false")
  | VNumber _ | VArray _ | VObject _ => stringify v
  end.

(** Lines 121-125.  Past the guard [ingestStatus] is truthy, so reading a
    property of it does not throw; the template of line 123 is evaluated
    only when [ingestStatus.error] is falsy. *)
Definition status_banner (ingestStatus : JsVal) : Outcome Node :=
  if truthy ingestStatus then
    error ← get ingestStatus "error";
    let className := ("status " ++ (if truthy error then "error" else "success"))%string in
    if truthy error then Ok (Elem "div" className [Expr error])
    else
      indexed ← get ingestStatus "indexed";
      count ← to_text indexed;
      Ok (Elem "div" className
            [Expr (VString ("Successfully ingested " ++ count ++ " articles"))])
  else Ok (Expr ingestStatus).

(** ** The article cards *)

(** [s.replace('-', '')]: the first hyphen goes, the others stay. *)
Fixpoint replace_hyphen (s : string) : string :=
  match s with
  | EmptyString => EmptyString
  | String c rest => if Ascii.eqb c "-"%char then rest else String c (replace_hyphen rest)
  end.

Fixpoint hyphens (s : string) : nat :=
  match s with
  | EmptyString => 0
  | String c rest => (if Ascii.eqb c "-"%char then 1 else 0) + hyphens rest
  end.

(** [v.replace(...)] and [v.toUpperCase()]: a method of strings, called on
    a value.  Numbers, booleans and arrays have no such method, and what a
    parsed object has under that name is not a function. *)
Definition on_string {A} (f : string -> A) (v : JsVal) : Outcome A :=
  match v with
  | VString s => Ok (f s)
  | _ => Raise TypeError
  end.

(** A string, a number or a boolean. *)
Definition primitive (v : JsVal) : bool :=
  match v with
  | VString _ | VNumber _ | VBool _ => true
  | _ => false
  end.

(** What React DOM accepts as a child: any value but an object, an array
    when its items are accepted; and an element when its children are. *)
Fixpoint valid_child (v : JsVal) : bool :=
  match v with
  | VObject _ => false
  | VArray items => forallb valid_child items
  | _ => true
  end.

Fixpoint renders (n : Node) : bool :=
  match n with
  | Text _ | Num _ => true
  | Expr v => valid_child v
  | Items l => forallb renders l
  | Elem _ _ children => forallb renders children
  | Button _ _ _ children => forallb renders children
  end.

(** A field that holds text or is missing. *)
Definition text_or_missing (v : JsVal) : bool :=
  match v with
  | VUndefined | VNull | VString _ => true
  | _ => false
  end.

(** A field that holds a number or is missing. *)
Definition number_or_missing (v : JsVal) : bool :=
  match v with
  | VUndefined | VNull | VNumber _ => true
  | _ => false
  end.

Section Cards.

(** [String.prototype.toUpperCase], and [new Date(v).toLocaleDateString()],
    whose text depends on the locale of the browser and which throws only
    when turning [v] into a primitive does. *)
Variable toUpperCase : string -> string.
Variable toLocaleDateString : JsVal -> Outcome string.

(** Lines 195-200: the object that is logged for each article.  Building
    it reads four fields of the article. *)
Definition log_article (article : JsVal) : Outcome unit :=
  _ ← get article "title";
  _ ← get article "summary";
  _ ← get article "sentiment_overall";
  _ ← get article "bias_overall";
  Ok tt.

(** Lines 204-209.  (The [href], [target] and [rel] of the link are left
    out, and so are the [style] props below: reading them throws nothing
    that the reads next to them do not throw.) *)
Definition article_header (article : JsVal) : Outcome Node :=
  title ← get article "title";
  Ok (Elem "div" "article-header"
        [ Elem "h2" "" [Expr (js_or title (VString "Untitled"))];
          Elem "a" "external-link" [Text "ðŸ”—"] ]).

(** Lines 211-218. *)
Definition article_meta (article : JsVal) : Outcome Node :=
  source_name ← get article "source_name";
  published_date ← get article "published_date";
  date ←
    (if truthy published_date then
       shown ← toLocaleDateString published_date;
       Ok (Elem "span" "date" [Expr (VString shown)])
     else Ok (Expr published_date));
  Ok (Elem "div" "article-meta"
        [ Elem "span" "source" [Expr (js_or source_name (VString "Unknown Source"))];
          date ]).

(** Lines 221-225. *)
Definition article_debug (article : JsVal) : Outcome Node :=
  sentiment ← get article "sentiment_overall";
  bias ← get article "bias_overall";
  summary ← get article "summary";
  Ok (Elem "div" ""
        [ Text "DEBUG: sentiment="; Expr (js_or sentiment (VString "NONE"));
          Text ", bias="; Expr (js_or bias (VString "NONE"));
          Text ", summary="; Expr (VString (if truthy summary then "YES" else "NO")) ]).

(** Lines 228, 232 and 237. *)
Definition sentiment_badge_class (article : JsVal) : Outcome string :=
  overall ← get article "sentiment_overall";
  shown ← to_text (js_or overall (VString "unknown"));
  Ok ("badge sentiment-" ++ shown)%string.

Definition bias_badge_class (article : JsVal) : Outcome string :=
  overall ← get article "bias_overall";
  shown ← on_string replace_hyphen (js_or overall (VString "unknown"));
  Ok ("badge bias-" ++ shown)%string.

Definition language_badge (article : JsVal) : Outcome Node :=
  language ← get article "language";
  shown ← on_string toUpperCase (js_or language (VString "unknown"));
  Ok (Elem "span" "badge language" [Expr (VString shown)]).

(** Lines 227-239. *)
Definition analysis_badges (article : JsVal) : Outcome Node :=
  sentiment_class ← sentiment_badge_class article;
  sentiment_children ← sentiment_badge_children article;
  bias_class ← bias_badge_class article;
  bias_children ← bias_badge_children article;
  language ← language_badge article;
  Ok (Elem "div" "analysis-badges"
        [ Elem "span" sentiment_class sentiment_children;
          Elem "span" bias_class bias_children;
          language ]).

(** Lines 241-251. *)
Definition summary_section (article : JsVal) : Outcome Node :=
  summary ← get article "summary";
  Ok (Elem "div" "summary"
        [ Elem "strong" "" [Text "Summary:"];
          Elem "p" "" [if truthy summary then Expr summary else Text "No summary available"] ]).

(** Lines 194-272: the card of one article. *)
Definition article_card (article : JsVal) : Outcome Node :=
  log_article article;;
  header ← article_header article;
  meta ← article_meta article;
  debug ← article_debug article;
  badges ← analysis_badges article;
  summary ← summary_section article;
  entities ← entities_section article;
  Ok (Elem "div" "article-card" [header; meta; debug; badges; summary; entities]).

(** [v.length === 0]. *)
Definition length_is_zero (v : JsVal) : Outcome bool :=
  match v with
  | VUndefined | VNull => Raise TypeError
  | VArray l => Ok (length l =? 0)%nat
  | VString s => Ok (String.length s =? 0)%nat
  | VBool _ | VNumber _ => Ok false
  | VObject fs =>
      Ok match field "length" fs with
         | Some (VNumber x) => PrimFloat.eqb x 0%float
         | _ => false
         end
  end.

Definition no_articles : Node :=
  Elem "div" "no-articles"
    [Elem "p" "" [Text "No articles found. Try adjusting your search or ingest new articles."]].

(** Lines 188-274.  [articles.map(...)] is a call of a function only on an
    array. *)
Definition article_list (articles : JsVal) : Outcome Node :=
  none ← length_is_zero articles;
  if (none : bool) then Ok no_articles
  else
    match articles with
    | VArray items =>
        cards ← map_each article_card items;
        Ok (Elem "div" "articles-grid" [Items cards])
    | _ => Raise TypeError
    end.

End Cards.

(** ** More about the event loop *)

(** Code all of whose setter calls satisfy [P] and all of whose requests
    satisfy [R]. *)
Inductive Within (P : Setter -> Prop) (R : Request -> Prop) {A} : Async A -> Prop :=
| within_ret a : Within P R (Ret a)
| within_throw e : Within P R (Throw e)
| within_call s k : P s -> Within P R k -> Within P R (Call s k)
| within_fetch req k :
    R req -> (forall r, Within P R (k r)) -> Within P R (AwaitFetch req k)
| within_json resp k : (forall r, Within P R (k r)) -> Within P R (AwaitJson resp k).

(** Filters that hold, under each key, a value the select of that key
    offers. *)
Definition valid_filters (f : gmap string string) : Prop :=
  forall k v, f !! k = Some v -> offers k v.

Definition keeps_filters_valid (s : Setter) : Prop :=
  match s with
  | setFilters f => valid_filters f
  | _ => True
  end.

(** The two requests of the component. *)
Definition expected_request (req : Request) : Prop :=
  req = ingest_request \/
  exists query f, valid_filters f /\ req = search_request query f.

Definition orderly (s : System) : Prop :=
  valid_filters (filters (ui (world s))) /\
  Forall expected_request (sent (world s)) /\
  Forall (fun p => rest_of (Within keeps_filters_valid expected_request) p.2) (pending s).

Definition writes_loading (s : Setter) : Prop := exists b, s = setLoading b.

(** Code that does not await and does not call [setLoading]. *)
Inductive Straight {A} : Async A -> Prop :=
| straight_ret a : Straight (Ret a)
| straight_throw e : Straight (Throw e)
| straight_call s k : ~ writes_loading s -> Straight k -> Straight (Call s k).

(** Code that, on every path, calls [setLoading] once, with [false], and
    does not await after that. *)
Inductive Unloading {A} : Async A -> Prop :=
| unloading_last k : Straight k -> Unloading (Call (setLoading false) k)
| unloading_call s k : ~ writes_loading s -> Unloading k -> Unloading (Call s k)
| unloading_fetch req k : (forall r, Unloading (k r)) -> Unloading (AwaitFetch req k)
| unloading_json resp k : (forall r, Unloading (k r)) -> Unloading (AwaitJson resp k).

(** Code that calls [setLoading(true)] only to go on as [Unloading]. *)
Inductive Tidy {A} : Async A -> Prop :=
| tidy_ret a : Tidy (Ret a)
| tidy_throw e : Tidy (Throw e)
| tidy_load k : Unloading k -> Tidy (Call (setLoading true) k)
| tidy_call s k : ~ writes_loading s -> Tidy k -> Tidy (Call s k)
| tidy_fetch req k : (forall r, Tidy (k r)) -> Tidy (AwaitFetch req k)
| tidy_json resp k : (forall r, Tidy (k r)) -> Tidy (AwaitJson resp k).

Definition finally_loaded {A} (_ : A) : Async unit := call (setLoading false).

Definition accounted (s : System) : Prop :=
  Forall (fun p => rest_of Tidy p.2 \/ rest_of Unloading p.2) (pending s) /\
  (loading (ui (world s)) = true ->
   Exists (fun p => rest_of Unloading p.2) (pending s)).

(** The states the event loop reaches when the ingest button is never
    clicked. *)
Inductive browsing : System -> Prop :=
| browsing_mounted : browsing mounted
| browsing_step s s' :
    browsing s -> step s s' -> in_flight Ingest s' = 0 -> browsing s'.

Definition serial (s : System) : Prop :=
  (pending s = [] /\ loading (ui (world s)) = false) \/
  (exists t, pending s = [(Search, t)] /\ rest_of Unloading t /\
             loading (ui (world s)) = true).

(** The world after a search has stored [v]. *)
Definition stores (v : JsVal) (w : World) : World :=
  mkWorld (apply_setter (setLoading false) (apply_setter (setArticles v) (ui w))) (sent w).

(** The rest of a search that has its response: from whatever state it
    resumes in, it stores what that response holds, and ends. *)
Definition decoding (resp : Response) (k : Outcome JsVal -> Async unit) : Prop :=
  forall w, advance (k (json_of resp)) w = (stores (stored_results (Ok resp)) w, None).

Definition search_tail (t : Task) : Prop :=
  match t with
  | OnFetch _ k =>
      forall reply w,
        match reply with
        | inl _ => advance (k reply) w = (stores (VArray []) w, None)
        | inr resp =>
            exists k', advance (k reply) w = (w, Some (OnJson resp k')) /\ decoding resp k'
        end
  | OnJson resp k => decoding resp k
  end.

Definition searching (s : System) : Prop :=
  Forall (fun p => p.1 = Search -> search_tail p.2) (pending s).

(** ** Sample data *)

(** A runtime for the examples.  ToNumber answers NaN, as it does on a
    string that is not a numeric literal and on a plain object (no example
    applies it to anything else). *)
Definition sample_coerce : JsVal -> Outcome float := fun _ => Ok nan.

Fixpoint zeros (n : nat) : string :=
  match n with
  | O => ""
  | S n => ("0" ++ zeros n)%string
  end.

(** The digits of [n] with a point before the last [f] of them. *)
Definition fixed_point (n : N) (f : nat) : string :=
  let m := pretty n in
  match f with
  | O => m
  | S _ =>
      let m := (zeros (S f - String.length m) ++ m)%string in
      let k := String.length m in
      (String.substring 0 (k - f) m ++ "." ++ String.substring (k - f) f m)%string
  end.

(** [x.toFixed(f)] as ECMAScript defines it below 10^21: the integer [n]
    nearest to [x * 10^f], the larger one on a tie, printed with [f]
    decimals.  (From 10^21 on the result is that of [String(x)], which no
    example needs: they get the empty string.) *)
Definition sample_toFixed (x : float) (f : nat) : string :=
  match Prim2SF x with
  | S754_nan => "NaN"
  | S754_infinity s => if s then "-Infinity" else "Infinity"
  | S754_zero _ => fixed_point 0 f
  | S754_finite s m e =>
      let scaled := (Z.pos m * 10 ^ Z.of_nat f)%Z in
      let n := if (0 <=? e)%Z then (scaled * 2 ^ e)%Z
               else ((2 * scaled + 2 ^ (- e)) `div` (2 * 2 ^ (- e)))%Z in
      if (10 ^ (21 + Z.of_nat f) <=? n)%Z then ""
      else ((if s then "-" else "") ++ fixed_point (Z.to_N n) f)%string
  end.

(** A backend that answers every request with the same body, and one
    that is down. *)
Definition answering (data : JsVal) : Backend :=
  fun _ _ => Ok (mkResponse (Some data)).
Definition offline : Backend := fun _ _ => Raise NetworkError.

(** The world at mount. *)
Definition fresh : World := mkWorld initial_ui [].

Definition entity (name type : string) : JsVal :=
  VObject [("name", VString name); ("type", VString type)].

Definition article_a : JsVal :=
  VObject [("title", VString "A"); ("sentiment_overall", VString "neutral");
           ("sentiment_score", VNumber 0)].

Definition article_b : JsVal :=
  VObject [("title", VString "B"); ("sentiment_overall", VString "neutral")].

Definition article_d : JsVal :=
  VObject [("title", VString "D"); ("sentiment_overall", VString "positive");
           ("sentiment_score", VNumber 0.875)].

Definition article_c : JsVal :=
  VObject [("title", VString "C");
           ("entities",
            VArray [entity "Delhi" "LOC"; entity "Mumbai" "LOC"; entity "ISRO" "ORG";
                    entity "RBI" "ORG"; entity "Ganga" "LOC"; entity "Kerala" "LOC";
                    entity "Pune" "LOC"; entity "Goa" "LOC"])].

(** ToString, [toUpperCase] and the printing of dates for the examples:
    an integer below 10^21 prints as its digits and a plain object as
    [[object Object]]; the letters a to z have the upper case of ASCII; and
    the date is that of a string that is no date.  (No example applies
    them to anything else.) *)
Definition sample_stringify : JsVal -> Outcome string :=
  fun v =>
    match v with
    | VNumber x => Ok (sample_toFixed x 0)
    | _ => Ok "[object Object]"
    end.

Definition upper (c : ascii) : ascii :=
  let n := nat_of_ascii c in
  if (97 <=? n)%nat && (n <=? 122)%nat then ascii_of_nat (n - 32) else c.

Fixpoint sample_toUpperCase (s : string) : string :=
  match s with
  | EmptyString => EmptyString
  | String c rest => String (upper c) (sample_toUpperCase rest)
  end.

Definition sample_toLocaleDateString : JsVal -> Outcome string :=
  fun _ => Ok "Invalid Date".

Definition article_e : JsVal :=
  VObject [("title", VString "E"); ("bias_overall", VString "left-leaning");
           ("language", VString "en"); ("sentiment_score", VNumber 0.875);
           ("entities", VArray [entity "Delhi" "LOC"])].

Definition article_f : JsVal :=
  VObject [("title", VString "F"); ("language", VNumber 5)].

Definition article_g : JsVal :=
  VObject [("title", VString "G"); ("published_date", VNumber 0);
           ("entities", VNumber 0)].

Definition article_h : JsVal :=
  VObject [("title", VString "H");
           ("entities",
            VArray [entity "Delhi" "LOC"; entity "Mumbai" "LOC"; entity "ISRO" "ORG";
                    entity "RBI" "ORG"; entity "Ganga" "LOC"; entity "Kerala" "LOC";
                    entity "Agra" "LOC"; entity "Leh" "LOC"])].

(** A race.  The first search fails; the ingest button is clicked, and
    then Search, while the ingestion is in flight.  The ingestion succeeds
    and refreshes: its search is answered with [[B]].  Then the search of
    the click, which was sent before the refresh, is answered with [[A]].
    (Each response takes two turns: it arrives, and its body is decoded;
    [settle] does not look at its reply in the second.) *)
Definition replying (data : JsVal) : Outcome Response := Ok (mkResponse (Some data)).

Definition race_started : System :=
  click_search (click_ingest (settle 0 (Raise NetworkError) mounted)).

Definition race_refreshing : System :=
  settle 0 (Raise NetworkError)
    (settle 0 (replying (VObject [("indexed", VNumber 5)])) race_started).

Definition race_refreshed : System :=
  settle 0 (Raise NetworkError)
    (settle 0 (replying (VObject [("results", VArray [article_b])])) race_refreshing).

Definition race_over : System :=
  settle 0 (Raise NetworkError)
    (settle 0 (replying (VObject [("results", VArray [article_a])])) race_refreshed).

(** * Properties *)

(** ** Running a body *)

Lemma run_bind {A B} net (m : Async A) (f : A -> Async B) w :
  run net (bind m f) w =
  match run net m w with
  | (inr a, w') => run net (f a) w'
  | (inl e, w') => (inl e, w')
  end.
Proof.
  revert w. induction m; intros w; simpl; auto.
Qed.

Lemma run_try_catch {A} net (m : Async A) (h : Exn -> Async A) w :
  run net (try_catch m h) w =
  match run net m w with
  | (inl e, w') => run net (h e) w'
  | (inr a, w') => (inr a, w')
  end.
Proof.
  revert w. induction m; intros w; simpl; auto.
Qed.

(** [run] is [advance], then the answer of the backend, then [run] again. *)
Lemma run_advance net (m : Async unit) w :
  (run net m w).2 =
  match advance m w with
  | (w', None) => w'
  | (w', Some (OnFetch req k)) => (run net (k (net (sent w) req)) w').2
  | (w', Some (OnJson resp k)) => (run net (k (json_of resp)) w').2
  end.
Proof.
  revert w. induction m as [a | e | s k IH | req k IH | resp k IH]; intros w; cbn; try done.
  rewrite IH. by destruct (advance k _) as [w' [[req k' | resp k'] |]].
Qed.

(** ** The search request *)

Lemma nonempty_Some (o : option string) :
  nonempty o = true <-> exists v, o = Some v /\ v <> "".
Proof.
  destruct o as [s|]; simpl.
  - destruct (String.eqb_spec s ""); simpl; split.
    + discriminate.
    + intros (v & [= <-] & Hv). done.
    + eauto.
    + done.
  - split; [discriminate | intros (v & [=] & _)].
Qed.

Lemma elem_of_append_if k v k0 o ps :
  (k, v) ∈ append_if k0 o ps <->
  (k, v) ∈ ps \/ (k = k0 /\ o = Some v /\ v <> "").
Proof.
  unfold append_if, append.
  destruct (nonempty o) eqn:E.
  - apply nonempty_Some in E as (s & -> & Hs). simpl.
    rewrite elem_of_app, list_elem_of_singleton. naive_solver.
  - split; [auto |]. intros [H | (_ & -> & Hv)]; [done |].
    exfalso. assert (nonempty (Some v) = true) by (apply nonempty_Some; eauto).
    congruence.
Qed.

Lemma search_params_spec query currentFilters k v :
  (k, v) ∈ search_params query currentFilters <->
  (k = "q" /\ v = query /\ query <> "") \/
  (k = "language" /\ currentFilters !! "language" = Some v /\ v <> "") \/
  (k = "sentiment" /\ currentFilters !! "sentiment" = Some v /\ v <> "") \/
  (k = "bias" /\ currentFilters !! "bias" = Some v /\ v <> "") \/
  (k = "size" /\ v = "20").
Proof.
  unfold search_params, append.
  rewrite elem_of_app, list_elem_of_singleton, !elem_of_append_if, elem_of_nil.
  naive_solver.
Qed.

Lemma append_if_keys k o ps :
  (append_if k o ps).*1 = ps.*1 ++ (if nonempty o then [k] else []).
Proof.
  unfold append_if, append. destruct (nonempty o).
  - by rewrite fmap_app.
  - by rewrite app_nil_r.
Qed.

Lemma search_params_keys query currentFilters :
  NoDup (search_params query currentFilters).*1.
Proof.
  unfold search_params, append.
  rewrite fmap_app, !append_if_keys. simpl.
  repeat match goal with |- context [if ?b then _ else _] => destruct b end;
    simpl; repeat (apply NoDup_cons; split; [set_solver |]); apply NoDup_nil_2.
Qed.

Lemma run_fetchArticles net query currentFilters w :
  run net (fetchArticles query currentFilters) w =
  (Ok tt, after_search net query currentFilters w).
Proof.
  unfold fetchArticles, after_search, stored_results. cbn.
  destruct (net (sent w) (search_request query currentFilters)) as [e | response]; cbn; [done |].
  destruct (json_of response) as [e | data]; cbn; [done |].
  destruct (log_first_article data) as [e | []]; cbn; [done |].
  destruct (get data "results") as [e | results]; cbn; done.
Qed.

(** C1.  Whatever the query and the filters, [fetchArticles] sends one
    request; its parameters are [q] when the query is non-empty (with the
    query as typed), [language], [sentiment] and [bias] when that filter
    is non-empty (with its value), and [size=20], each at most once and
    nothing else. *)
Theorem search_request_carries_nonempty_fields net query currentFilters w :
  sent (run net (fetchArticles query currentFilters) w).2
    = sent w ++ [search_request query currentFilters] /\
  (forall k v,
     (k, v) ∈ params (search_request query currentFilters) <->
     (k = "q" /\ v = query /\ query <> "") \/
     (k = "language" /\ currentFilters !! "language" = Some v /\ v <> "") \/
     (k = "sentiment" /\ currentFilters !! "sentiment" = Some v /\ v <> "") \/
     (k = "bias" /\ currentFilters !! "bias" = Some v /\ v <> "") \/
     (k = "size" /\ v = "20")) /\
  NoDup (params (search_request query currentFilters)).*1.
Proof.
  rewrite run_fetchArticles. split; [done |]. split.
  - intros k v. apply search_params_spec.
  - apply search_params_keys.
Qed.

(** ** What a search stores *)

Lemma log_first_article_results data items :
  read data "results" = VArray items ->
  (forall a, head items = Some a -> nullish a = false) ->
  log_first_article data = Ok tt.
Proof.
  unfold read, log_first_article. intros Hr Hhead.
  destruct (get data "results") as [e | results]; [done |]. subst results.
  cbn. destruct items as [| a rest]; cbn; [done |].
  specialize (Hhead a eq_refl). destruct a; try discriminate; done.
Qed.

Lemma stored_results_array response data items :
  body response = Some data ->
  read data "results" = VArray items ->
  (forall a, head items = Some a -> nullish a = false) ->
  stored_results (Ok response) = VArray items.
Proof.
  intros Hb Hr Hhead. unfold stored_results, json_of.
  cbn -[log_first_article]. rewrite Hb. cbn -[log_first_article].
  rewrite (log_first_article_results data items Hr Hhead).
  unfold read in Hr. cbn. destruct (get data "results"); [done |]. by subst.
Qed.

Lemma stored_results_lacking response data :
  body response = Some data ->
  lacks "results" data ->
  stored_results (Ok response) = VArray [].
Proof.
  intros Hb Hl. unfold stored_results, json_of. cbn. rewrite Hb. cbn.
  unfold log_first_article.
  destruct data; cbn in *; try done. by rewrite Hl.
Qed.

(** C2.  When the search succeeds and [results] in the body is an array
    of articles (none of them [null]), [articles] becomes that array, in
    its order; when the body has no [results], [articles] becomes the
    empty array. *)
Theorem search_stores_results net query currentFilters w response data :
  net (sent w) (search_request query currentFilters) = Ok response ->
  body response = Some data ->
  (forall items,
     read data "results" = VArray items ->
     Forall (fun a => nullish a = false) items ->
     articles (ui (run net (fetchArticles query currentFilters) w).2) = VArray items) /\
  (lacks "results" data ->
     articles (ui (run net (fetchArticles query currentFilters) w).2) = VArray []).
Proof.
  intros Hnet Hbody. rewrite run_fetchArticles. cbn. rewrite Hnet. split.
  - intros items Hr Hitems. eapply stored_results_array; eauto.
    intros a Ha. destruct items as [| a' rest]; [done |].
    injection Ha as ->. by inversion Hitems.
  - intros Hl. eapply stored_results_lacking; eauto.
Qed.

(** C3.  When the fetch rejects, or the body of the response is not JSON,
    the search returns normally and leaves [articles] empty and [loading]
    false. *)
Theorem failed_search_clears_results net query currentFilters w :
  (exists e, net (sent w) (search_request query currentFilters) = Raise e) \/
  (exists response,
     net (sent w) (search_request query currentFilters) = Ok response /\
     body response = None) ->
  (run net (fetchArticles query currentFilters) w).1 = Ok tt /\
  articles (ui (run net (fetchArticles query currentFilters) w).2) = VArray [] /\
  loading (ui (run net (fetchArticles query currentFilters) w).2) = false.
Proof.
  intros H. rewrite run_fetchArticles. cbn. split; [done |]. split; [| done].
  destruct H as [[e ->] | (response & -> & Hb)]; [done |].
  unfold stored_results, json_of. cbn. by rewrite Hb.
Qed.

(** ** Ingestion *)

(** The paths through [ingest_with]: the fetch rejects; the body is not
    JSON; reading [data.error] throws; the status reports an error; the
    refresh runs. *)
Ltac ingest_paths net w :=
  unfold ingestArticles, ingest_with; cbn -[fetchArticles];
  destruct (net (sent w) ingest_request) as [? | fetched] eqn:Hreply; cbn -[fetchArticles];
  [| destruct (json_of fetched) as [? | data] eqn:Hjson; cbn -[fetchArticles];
     [| destruct (get data "error") as [? | err] eqn:Herror; cbn -[fetchArticles];
        [| destruct (truthy err) eqn:Htruthy; cbn -[fetchArticles];
           [| rewrite ?run_bind, ?run_try_catch ]]]].

Lemma json_of_body response data :
  body response = Some data -> json_of response = Ok data.
Proof. unfold json_of. by intros ->. Qed.

(** C4, as the code has it.  When the ingest request completes with a
    status object, [ingestStatus] becomes that object, and the requests of
    the operation are the ingest request, followed by one search with the
    query and filters of the render that started the ingestion exactly
    when [error] is missing from the status or falsy; the query and the
    filters are still the same when the operation ends. *)
Theorem ingest_records_status_and_refreshes net w response fields :
  net (sent w) ingest_request = Ok response ->
  body response = Some (VObject fields) ->
  ingestStatus (ui (run net (ingestArticles (ui w)) w).2) = VObject fields /\
  sent (run net (ingestArticles (ui w)) w).2
    = sent w ++ ingest_request ::
        (if truthy (read (VObject fields) "error") then []
         else [search_request (searchQuery (ui w)) (filters (ui w))]) /\
  searchQuery (ui (run net (ingestArticles (ui w)) w).2) = searchQuery (ui w) /\
  filters (ui (run net (ingestArticles (ui w)) w).2) = filters (ui w).
Proof.
  intros Hnet Hbody. apply json_of_body in Hbody.
  unfold ingestArticles, ingest_with. cbn -[fetchArticles]. rewrite Hnet.
  cbn -[fetchArticles]. rewrite Hbody. unfold read. cbn -[fetchArticles].
  destruct (truthy (default VUndefined (field "error" fields))); cbn -[fetchArticles]; [done |].
  rewrite run_bind, run_try_catch, run_fetchArticles. cbn. by rewrite <- app_assoc.
Qed.


(** C6.  [handleFilterChange(filterType, value)] stores [value] under
    [filterType] in [filters], leaves the other fields and the query as
    they were, and sends exactly one request: the search for the query of
    the render with the new filters.  That request is a GET of the search
    URL; it carries the query when it is not empty, the new value under
    the filter that was set when it is not empty, the other filters as
    they were when they are not empty, and [size=20], each at most once
    and nothing else.  The request has left when the handler returns. *)
Theorem filter_change_searches_at_once net w filterType value :
  filters (ui (run net (handleFilterChange (ui w) filterType value) w).2) !! filterType
    = Some value /\
  (forall other, other <> filterType ->
     filters (ui (run net (handleFilterChange (ui w) filterType value) w).2) !! other
       = filters (ui w) !! other) /\
  searchQuery (ui (run net (handleFilterChange (ui w) filterType value) w).2)
    = searchQuery (ui w) /\
  sent (run net (handleFilterChange (ui w) filterType value) w).2
    = sent w ++ [search_request (searchQuery (ui w))
                   (filters (ui (run net (handleFilterChange (ui w) filterType value) w).2))] /\
  sent (advance (handleFilterChange (ui w) filterType value) w).1
    = sent (run net (handleFilterChange (ui w) filterType value) w).2 /\
  exists req,
    sent (run net (handleFilterChange (ui w) filterType value) w).2 = sent w ++ [req] /\
    method req = GET /\
    url req = "http://localhost:8000/articles/search" /\
    (forall k v,
       (k, v) ∈ params req <->
       (k = "q" /\ v = searchQuery (ui w) /\ v <> "") \/
       (k ∈ ["language"; "sentiment"; "bias"] /\
        k = filterType /\ v = value /\ v <> "") \/
       (k ∈ ["language"; "sentiment"; "bias"] /\
        k <> filterType /\ filters (ui w) !! k = Some v /\ v <> "") \/
       (k = "size" /\ v = "20")) /\
    NoDup (params req).*1.
Proof.
  unfold handleFilterChange. cbn -[fetchArticles].
  rewrite run_fetchArticles. cbn.
  split; [apply lookup_insert_eq |].
  split; [intros other Hne; by apply lookup_insert_ne |].
  split; [done |]. split; [done |]. split; [done |].
  eexists. split; [reflexivity |]. split; [done |]. split; [done |].
  split; [| apply search_params_keys].
  intros k v. cbn. rewrite search_params_spec.
  assert (forall key : string,
             (k = key /\ <[filterType := value]> (filters (ui w)) !! key = Some v /\ v <> "") <->
             (k = key /\
              ((k = filterType /\ v = value) \/
               (k <> filterType /\ filters (ui w) !! k = Some v)) /\ v <> "")) as Hkey.
  { intros key. destruct (decide (key = filterType)) as [-> | Hne].
    - rewrite lookup_insert_eq. split.
      + intros (-> & [= <-] & Hv). split; [done |]. split; [by left | done].
      + intros (-> & [[_ ->] | [Hne _]] & Hv); done.
    - rewrite lookup_insert_ne by done. split.
      + intros (-> & Hl & Hv). split; [done |]. split; [by right | done].
      + intros (-> & [[-> _] | [_ Hl]] & Hv); done. }
  rewrite !Hkey. clear Hkey. set_unfold. naive_solver.
Qed.

(** C7.  The ingestion writes [articles] only through the refresh: with
    any refresh that leaves [articles] alone, so does the whole
    operation; and an ingestion of [App] that sends no search leaves
    [articles] as it was. *)
Theorem ingest_leaves_results_to_search net w :
  (forall refresh,
     (forall w0, articles (ui (run net refresh w0).2) = articles (ui w0)) ->
     articles (ui (run net (ingest_with refresh) w).2) = articles (ui w)) /\
  (forall now,
     sent (run net (ingestArticles now) w).2 = sent w ++ [ingest_request] ->
     articles (ui (run net (ingestArticles now) w).2) = articles (ui w)).
Proof.
  split.
  - intros refresh Hrefresh. ingest_paths net w; try done.
    match goal with |- context [run net refresh ?w0] =>
      specialize (Hrefresh w0); destruct (run net refresh w0) as [[e | []] w1]
    end; cbn -[fetchArticles] in *; done.
  - intros now. ingest_paths net w; try done.
    rewrite run_fetchArticles. cbn. rewrite <- app_assoc. cbn.
    intros H. apply app_inv_head in H. discriminate.
Qed.

(** ** The event loop: one ingestion at a time *)

Lemma quiet_bind {A B} (m : Async A) (f : A -> Async B) :
  Quiet m -> (forall a, Quiet (f a)) -> Quiet (bind m f).
Proof.
  intros Hm Hf. induction Hm; cbn; try constructor; auto.
Qed.

Lemma quiet_try_catch {A} (m : Async A) (h : Exn -> Async A) :
  Quiet m -> (forall e, Quiet (h e)) -> Quiet (try_catch m h).
Proof.
  intros Hm Hh. induction Hm; cbn; try constructor; auto.
Qed.

Lemma quiet_eval {A} (o : Outcome A) : Quiet (eval o).
Proof. destruct o; constructor. Qed.

Lemma quiet_fetchArticles query currentFilters :
  Quiet (fetchArticles query currentFilters).
Proof.
  unfold fetchArticles.
  apply quiet_bind; [repeat constructor; done | intros _].
  apply quiet_bind; [| intros; repeat constructor; done].
  apply quiet_try_catch; [| intros; repeat constructor; done].
  apply quiet_bind; [constructor; [done | apply quiet_eval] | intros response].
  apply quiet_bind; [constructor; apply quiet_eval | intros data].
  apply quiet_bind; [apply quiet_eval | intros _].
  apply quiet_bind; [apply quiet_eval | intros results].
  repeat constructor; done.
Qed.

Lemma closing_finally {A} (m : Async A) (h : Exn -> Async A) :
  Quiet m ->
  (forall e, Closing (bind (h e) finally_idle)) ->
  Closing (bind (try_catch m h) finally_idle).
Proof.
  intros Hm Hh. induction Hm; cbn; auto; constructor; auto.
Qed.

Lemma advance_ingestArticles now w :
  exists k,
    advance (ingestArticles now) w =
      (mkWorld (apply_setter (setIngestStatus VNull) (apply_setter (setIngesting true) (ui w)))
         (sent w ++ [ingest_request]),
       Some (OnFetch ingest_request k)) /\
    forall r, Closing (k r).
Proof.
  unfold ingestArticles, ingest_with. cbn -[fetchArticles].
  eexists. split; [reflexivity |]. intros r.
  apply (closing_finally
           (bind (eval r) (fun response : Response =>
              bind (json response) (fun data =>
                bind (call (setIngestStatus data)) (fun _ =>
                  bind (eval (get data "error")) (fun error =>
                    if negb (truthy error)
                    then fetchArticles (searchQuery now) (filters now)
                    else Ret tt)))))).
  - apply quiet_bind; [apply quiet_eval | intros response].
    apply quiet_bind; [constructor; apply quiet_eval | intros data].
    apply quiet_bind; [repeat constructor; done | intros _].
    apply quiet_bind; [apply quiet_eval | intros error].
    destruct (negb (truthy error)); [apply quiet_fetchArticles | constructor].
  - intros e. cbn. repeat constructor; done.
Qed.

Lemma apply_setter_ingesting s u :
  (forall b, s <> setIngesting b) -> ingesting (apply_setter s u) = ingesting u.
Proof. intros Hs. destruct s; cbn; try done. by destruct (Hs b). Qed.

Lemma advance_quiet (m : Async unit) w :
  Quiet m ->
  ingesting (ui (advance m w).1) = ingesting (ui w) /\
  forall t, (advance m w).2 = Some t ->
    rest_of Quiet t /\ awaits_post (Search, t) = false.
Proof.
  intros Hm. revert w. induction Hm; intros w; cbn.
  - done.
  - done.
  - destruct (IHHm (mkWorld (apply_setter s (ui w)) (sent w))) as [Hi Ht].
    cbn in Hi. rewrite Hi. split; [by apply apply_setter_ingesting | done].
  - split; [done |]. intros t [= <-]. split; [done |].
    unfold awaits_post. cbn. rewrite H. done.
  - split; [done |]. intros t [= <-]. done.
Qed.

Lemma advance_closing (m : Async unit) w :
  Closing m ->
  match (advance m w).2 with
  | Some t => rest_of Closing t /\ ingesting (ui (advance m w).1) = ingesting (ui w)
  | None => ingesting (ui (advance m w).1) = false
  end.
Proof.
  intros Hm. revert w. induction Hm; intros w; cbn; try done.
  specialize (IHHm (mkWorld (apply_setter s (ui w)) (sent w))).
  destruct (advance k _) as [w' [t |]]; cbn in *; [| done].
  destruct IHHm as [Ht Hi]. split; [done |]. rewrite Hi.
  by apply apply_setter_ingesting.
Qed.

Section Counting.

Context {A : Type} (P : A -> Prop) `{!forall x, Decision (P x)}.

Lemma count_insert (l : list A) i x y :
  l !! i = Some x -> (P x <-> P y) ->
  length (filter P (<[i := y]> l)) = length (filter P l).
Proof.
  intros Hi Hxy.
  rewrite <- (take_drop_middle l i x Hi) at 2.
  rewrite insert_take_drop by (by eapply lookup_lt_Some).
  rewrite !filter_app, !filter_cons, !length_app.
  destruct (decide (P x)), (decide (P y)); tauto || done.
Qed.

Lemma count_delete (l : list A) i x :
  l !! i = Some x ->
  length (filter P l) = length (filter P (delete i l)) + (if decide (P x) then 1 else 0).
Proof.
  intros Hi.
  rewrite <- (take_drop_middle l i x Hi) at 1.
  rewrite delete_take_drop.
  rewrite !filter_app, !filter_cons, !length_app.
  destruct (decide (P x)); cbn; lia.
Qed.

End Counting.

Lemma posts_are_ingests (l : list (Operation * Task)) :
  Forall well_formed l ->
  length (filter (fun p => awaits_post p = true) l)
    <= length (filter (fun p => p.1 = Ingest) l).
Proof.
  induction 1 as [| [op t] l Hp _ IH]; [done |].
  rewrite !filter_cons. unfold well_formed in Hp. cbn in *.
  destruct op; cbn in *.
  - destruct Hp as [_ ->].
    repeat case_decide; try done; cbn; lia.
  - repeat case_decide; try done; cbn; lia.
Qed.

Lemma invariant_spawn_search m s :
  Quiet m -> invariant s -> invariant (spawn Search m s).
Proof.
  intros Hm [Hwf Hcount]. unfold spawn.
  destruct (advance_quiet m (world s) Hm) as [Hi Ht].
  destruct (advance m (world s)) as [w' t]. cbn in *.
  split; cbn.
  - apply Forall_app. split; [done |].
    destruct t as [t |]; [| done].
    apply Forall_singleton. by apply Ht.
  - unfold in_flight in *. cbn. rewrite filter_app, length_app, Hcount, Hi.
    destruct t as [t |]; [| cbn; lia].
    rewrite filter_cons. case_decide; [done | cbn; lia].
Qed.

Lemma invariant_click_ingest s :
  invariant s ->
  can_click_ingest (ui (world s)) = true ->
  invariant (click_ingest s).
Proof.
  intros [Hwf Hcount] Hclick. unfold click_ingest, spawn.
  destruct (advance_ingestArticles (ui (world s)) (world s)) as (k & -> & Hk).
  unfold can_click_ingest in Hclick. cbn in Hclick.
  apply andb_true_iff in Hclick as [_ Hidle]. apply negb_true_iff in Hidle.
  rewrite Hidle in Hcount.
  split; cbn.
  - apply Forall_app. split; [done |]. by apply Forall_singleton.
  - unfold in_flight in *. cbn. rewrite filter_app, length_app, Hcount.
    rewrite filter_cons. case_decide; done.
Qed.

Lemma invariant_resume s i op t m :
  invariant s ->
  pending s !! i = Some (op, t) ->
  (forall P, rest_of P t -> P m) ->
  invariant (resume i op m s).
Proof.
  intros [Hwf Hcount] Hi Hm. unfold resume.
  pose proof (Forall_lookup_1 _ _ _ _ Hwf Hi) as Hp.
  unfold well_formed in Hp. cbn in Hp. unfold in_flight in *.
  destruct op.
  - destruct Hp as [Hq _]. apply Hm in Hq.
    destruct (advance_quiet m (world s) Hq) as [Hing Ht].
    destruct (advance m (world s)) as [w' [t' |]]; cbn in *; split; cbn.
    + apply Forall_insert; [done |]. by apply Ht.
    + rewrite (count_insert _ _ _ _ _ Hi) by done. by rewrite Hing.
    + by apply Forall_delete.
    + rewrite Hing, <- Hcount, (count_delete _ _ _ _ Hi). cbn.
      case_decide; [done | lia].
  - apply Hm in Hp.
    pose proof (advance_closing m (world s) Hp) as Hadv.
    destruct (advance m (world s)) as [w' [t' |]]; cbn in *; split; cbn.
    + apply Forall_insert; [done |]. by destruct Hadv.
    + rewrite (count_insert _ _ _ _ _ Hi) by done. destruct Hadv as [_ ->]. done.
    + by apply Forall_delete.
    + rewrite Hadv. rewrite (count_delete _ _ _ _ Hi) in Hcount. cbn in Hcount.
      case_decide; [| done]. destruct (ingesting (ui (world s))); lia.
Qed.

Lemma reachable_invariant s : reachable s -> invariant s.
Proof.
  induction 1 as [| s s' _ IH Hstep].
  - apply invariant_spawn_search; [apply quiet_fetchArticles |].
    split; [constructor | done].
  - destruct Hstep.
    + by apply invariant_click_ingest.
    + apply invariant_spawn_search; [apply quiet_fetchArticles | done].
    + apply invariant_spawn_search; [| done].
      unfold handleFilterChange.
      apply quiet_bind; [repeat constructor; done | intros _; apply quiet_fetchArticles].
    + apply invariant_spawn_search; [repeat constructor; done | done].
    + eapply invariant_resume; [done | eassumption | intros P HP; apply HP].
    + eapply invariant_resume; [done | eassumption | intros P HP; apply HP].
Qed.

(** C8.  In every state the event loop can reach: the ingest button is
    disabled exactly when [ingesting] is true, and then no click starts an
    ingestion; the ingestions in flight are one when [ingesting] is true
    and none otherwise; and at most one suspended call waits for the
    answer to the ingest request. *)
Theorem one_ingest_at_a_time s :
  reachable s ->
  accepts_click (ingest_button (ui (world s))) = negb (ingesting (ui (world s))) /\
  (ingesting (ui (world s)) = true -> can_click_ingest (ui (world s)) = false) /\
  in_flight Ingest s = (if ingesting (ui (world s)) then 1 else 0) /\
  length (filter (fun p => awaits_post p = true) (pending s)) <= 1.
Proof.
  intros Hs. destruct (reachable_invariant s Hs) as [Hwf Hcount].
  split; [done |]. split.
  - intros H. unfold can_click_ingest. cbn. rewrite H. apply andb_false_r.
  - split; [done |].
    pose proof (posts_are_ingests _ Hwf) as Hle. unfold in_flight in Hcount.
    destruct (ingesting (ui (world s))); lia.
Qed.

(** ** Rendering *)

Lemma get_read v k : nullish v = false -> get v k = Ok (read v k).
Proof. unfold read. destruct v; cbn; done. Qed.

Lemma entity_tag_shown entity :
  nullish entity = false -> entity_tag entity = Ok (shown_tag entity).
Proof.
  intros H. unfold entity_tag, shown_tag.
  rewrite !(get_read entity) by done. done.
Qed.

Lemma map_each_entity_tag (items : list JsVal) :
  Forall (fun e => nullish e = false) items ->
  map_each entity_tag items = Ok (shown_tag <$> items).
Proof.
  induction 1 as [| e rest He _ IH]; [done |].
  cbn -[entity_tag]. rewrite (entity_tag_shown e He). cbn -[entity_tag].
  rewrite IH. done.
Qed.

(** C9.  For an article whose [entities] is an array with no [null] among
    its first six items: when the array is not empty the section holds
    the tags of the first six items, in order, and, after them, the
    marker [+(n-6) more] when the array has [n > 6] items and nothing when
    it has at most six; when the array is empty, or the article has no
    [entities], there is no section: the child is [false] or [undefined],
    which React skips. *)
Theorem entities_section_shows_first_six article :
  nullish article = false ->
  (forall items,
     read article "entities" = VArray items ->
     items <> [] ->
     Forall (fun e => nullish e = false) (take 6 items) ->
     entities_section article =
       Ok (Elem "div" "entities"
             [ Elem "strong" "" [Text "Key Entities:"];
               Elem "div" "entity-tags"
                 [ Items (shown_tag <$> take 6 items); more_tag (length items) ] ]) /\
     length (shown_tag <$> take 6 items) = length items `min` 6 /\
     (6 < length items ->
        more_tag (length items)
          = Elem "span" "entity-tag more" [Text "+"; Num (length items - 6); Text " more"]) /\
     (length items <= 6 -> blank (more_tag (length items)) = true)) /\
  (read article "entities" = VArray [] ->
     entities_section article = Ok (Expr (VBool false))) /\
  (lacks "entities" article ->
     entities_section article = Ok (Expr VUndefined)) /\
  blank (Expr (VBool false)) = true /\
  blank (Expr VUndefined) = true.
Proof.
  intros Harticle. unfold entities_section.
  rewrite (get_read article "entities" Harticle). split; [| repeat split].
  - intros items -> Hne Hitems.
    assert ((0 <? length items)%nat = true) as Hpos by (by destruct items).
    cbn -[entity_tag take Nat.ltb]. rewrite Hpos.
    rewrite (map_each_entity_tag _ Hitems). cbn -[take Nat.ltb].
    split; [done |]. split; [| split].
    + rewrite length_fmap, length_take. lia.
    + intros H. unfold more_tag. by rewrite (proj2 (Nat.ltb_lt _ _) H).
    + intros H. unfold more_tag.
      destruct (Nat.ltb_spec 6 (length items)); [lia | done].
  - by intros ->.
  - intros Hl. unfold read. destruct article; cbn in *; try done.
    by rewrite Hl.
Qed.

Lemma percentage_number (x : float) :
  percentage (VNumber x) =
    Ok (if truthy (VNumber x)
        then VString (" (" ++ toFixed (x * 100)%float 1 ++ "%)")
        else VNumber x).
Proof. unfold percentage. by destruct (truthy (VNumber x)). Qed.

(** C10, on the code.  When the score of a badge is a number [x], the
    badge ends with the text [ (p%)] if [x] is neither zero nor NaN, and
    with the number [x] itself otherwise; when the article has no score,
    it ends with [undefined].  React prints a number, [0] included, and
    skips [undefined]: a score of zero and a missing score do not render
    alike. *)
Theorem zero_score_is_printed fields :
  (forall x,
     field "sentiment_score" fields = Some (VNumber x) ->
     sentiment_badge_children (VObject fields) =
       Ok [ Text "Sentiment: ";
            Expr (js_or (read (VObject fields) "sentiment_overall") (VString "Unknown"));
            Expr (if truthy (VNumber x)
                  then VString (" (" ++ toFixed (x * 100)%float 1 ++ "%)")
                  else VNumber x) ]) /\
  (field "sentiment_score" fields = None ->
     sentiment_badge_children (VObject fields) =
       Ok [ Text "Sentiment: ";
            Expr (js_or (read (VObject fields) "sentiment_overall") (VString "Unknown"));
            Expr VUndefined ]) /\
  (forall x,
     field "bias_score" fields = Some (VNumber x) ->
     bias_badge_children (VObject fields) =
       Ok [ Text "Bias: ";
            Expr (js_or (read (VObject fields) "bias_overall") (VString "Unknown"));
            Expr (if truthy (VNumber x)
                  then VString (" (" ++ toFixed (x * 100)%float 1 ++ "%)")
                  else VNumber x) ]) /\
  (field "bias_score" fields = None ->
     bias_badge_children (VObject fields) =
       Ok [ Text "Bias: ";
            Expr (js_or (read (VObject fields) "bias_overall") (VString "Unknown"));
            Expr VUndefined ]) /\
  truthy (VNumber 0) = false /\
  blank (Expr (VNumber 0)) = false /\
  blank (Expr VUndefined) = true.
Proof.
  unfold sentiment_badge_children, bias_badge_children, read.
  repeat split; try done.
  - intros x Hscore. cbn -[percentage truthy]. rewrite Hscore.
    cbn -[percentage truthy]. by rewrite percentage_number.
  - intros Hscore. cbn. by rewrite Hscore.
  - intros x Hscore. cbn -[percentage truthy]. rewrite Hscore.
    cbn -[percentage truthy]. by rewrite percentage_number.
  - intros Hscore. cbn. by rewrite Hscore.
Qed.

(** * Further properties *)

(** ** Searching *)

(** X1.  A search returns normally, whatever the backend does; it ends with
    [loading] false and leaves the query, the filters, [ingesting] and
    [ingestStatus] as they were. *)
Theorem search_writes_articles_and_loading_only net query currentFilters w :
  (run net (fetchArticles query currentFilters) w).1 = Ok tt /\
  loading (ui (run net (fetchArticles query currentFilters) w).2) = false /\
  searchQuery (ui (run net (fetchArticles query currentFilters) w).2) = searchQuery (ui w) /\
  filters (ui (run net (fetchArticles query currentFilters) w).2) = filters (ui w) /\
  ingesting (ui (run net (fetchArticles query currentFilters) w).2) = ingesting (ui w) /\
  ingestStatus (ui (run net (fetchArticles query currentFilters) w).2) = ingestStatus (ui w).
Proof. by rewrite run_fetchArticles. Qed.

Lemma stored_results_cases reply :
  stored_results reply = VArray [] \/
  exists response data,
    reply = Ok response /\ body response = Some data /\
    stored_results reply = read data "results" /\
    truthy (read data "results") = true.
Proof.
  unfold stored_results, read. destruct reply as [e | response]; [by left |].
  cbn -[log_first_article]. unfold json_of.
  destruct (body response) as [data |] eqn:Hbody; [| by left].
  cbn -[log_first_article].
  destruct (log_first_article data) as [e | []]; [by left |].
  cbn. destruct (get data "results") as [e | results] eqn:Hget; [by left |].
  cbn. unfold js_or. destruct (truthy results) eqn:Htruthy; [| by left].
  right. exists response, data. by rewrite Hget.
Qed.

(** X2.  What a search stores is the empty array or the [results] of the
    body it received, and is never falsy: [articles] is never [null],
    [undefined], [0], [false] or the empty string after a search. *)
Theorem stored_articles_are_never_falsy net query currentFilters w :
  (articles (ui (run net (fetchArticles query currentFilters) w).2) = VArray [] \/
   exists response data,
     net (sent w) (search_request query currentFilters) = Ok response /\
     body response = Some data /\
     articles (ui (run net (fetchArticles query currentFilters) w).2)
       = read data "results") /\
  truthy (articles (ui (run net (fetchArticles query currentFilters) w).2)) = true.
Proof.
  rewrite run_fetchArticles. cbn.
  destruct (stored_results_cases (net (sent w) (search_request query currentFilters)))
    as [-> | (response & data & Hreply & Hbody & -> & Htruthy)].
  - split; [by left | done].
  - split; [| done]. right. by exists response, data.
Qed.

(** X3.  The debugging output of lines 35-42 costs a response: when the
    first result is [null], [Object.keys] throws, and the search stores the
    empty array instead of the results it received. *)
Theorem null_first_result_drops_the_response
    net query currentFilters w response data items :
  net (sent w) (search_request query currentFilters) = Ok response ->
  body response = Some data ->
  read data "results" = VArray (VNull :: items) ->
  articles (ui (run net (fetchArticles query currentFilters) w).2) = VArray [].
Proof.
  intros Hnet Hbody Hresults. rewrite run_fetchArticles. cbn. rewrite Hnet.
  unfold stored_results, json_of. cbn -[log_first_article]. rewrite Hbody.
  cbn -[log_first_article]. unfold log_first_article, read in *.
  destruct (get data "results") as [e | results]; [done |]. subst results. done.
Qed.

(** X4.  Setting one filter changes one parameter of the request: the
    parameter of that filter is there exactly when the new value is not
    empty, with that value, and the other parameters are those of a search
    with the old filters. *)
Theorem filter_change_updates_one_parameter query (f : gmap string string) filterType value :
  filterType ∈ ["language"; "sentiment"; "bias"] ->
  forall k v,
    (k, v) ∈ params (search_request query (<[filterType := value]> f)) <->
    (k = filterType /\ v = value /\ value <> "") \/
    (k <> filterType /\ (k, v) ∈ params (search_request query f)).
Proof.
  intros Hfield k v. cbn. rewrite !search_params_spec.
  set_unfold in Hfield.
  destruct Hfield as [-> | [-> | [-> | []]]];
    rewrite lookup_insert_eq, !lookup_insert_ne by done; naive_solver.
Qed.

(** ** Ingesting *)

(** X5.  An ingestion that succeeds refreshes the list as a search of its
    own would: with the query and the filters of the render that was
    clicked, whatever the state holds by then. It ends with the status it
    received, [ingesting] and [loading] false, and the filters of the state
    untouched. *)
Theorem ingest_refreshes_like_a_search net now w response data :
  net (sent w) ingest_request = Ok response ->
  body response = Some data ->
  nullish data = false ->
  truthy (read data "error") = false ->
  sent (run net (ingestArticles now) w).2
    = sent w ++ [ingest_request; search_request (searchQuery now) (filters now)] /\
  articles (ui (run net (ingestArticles now) w).2)
    = articles (ui (run net (fetchArticles (searchQuery now) (filters now))
                      (mkWorld (ui w) (sent w ++ [ingest_request]))).2) /\
  ingestStatus (ui (run net (ingestArticles now) w).2) = data /\
  ingesting (ui (run net (ingestArticles now) w).2) = false /\
  loading (ui (run net (ingestArticles now) w).2) = false /\
  filters (ui (run net (ingestArticles now) w).2) = filters (ui w).
Proof.
  intros Hnet Hbody Hdata Herror. apply json_of_body in Hbody.
  unfold ingestArticles, ingest_with. cbn -[fetchArticles]. rewrite Hnet.
  cbn -[fetchArticles]. rewrite Hbody. cbn -[fetchArticles].
  rewrite (get_read data "error" Hdata). cbn -[fetchArticles]. rewrite Herror.
  cbn -[fetchArticles].
  rewrite run_bind, run_try_catch, !run_fetchArticles. cbn.
  by rewrite <- app_assoc.
Qed.


(** X7.  After an ingestion whose fetch or decoding failed, the banner shows
    the synthetic message, as an error. *)
Theorem failed_ingest_shows_the_synthetic_error net now w :
  (exists e, net (sent w) ingest_request = Raise e) \/
  (exists response, net (sent w) ingest_request = Ok response /\ body response = None) ->
  status_banner (ingestStatus (ui (run net (ingestArticles now) w).2))
    = Ok (Elem "div" "status error" [Expr (VString "Failed to ingest articles")]).
Proof.
  intros Hfail.
  assert (ingestStatus (ui (run net (ingestArticles now) w).2) = ingest_failed) as ->; [| done].
  ingest_paths net w; rewrite ?run_fetchArticles; cbn; try done.
  all: destruct Hfail as [[e' He] | (r & Hr & Hb)]; try congruence.
  all: assert (r = fetched) as -> by congruence.
  all: unfold json_of in Hjson; rewrite Hb in Hjson; discriminate.
Qed.

(** X8.  After an ingestion that received a status, the banner shows the
    [error] of the status, as an error, when it is a string that is not
    empty; when [error] is falsy it shows the success line with [indexed]
    printed into it, whatever [indexed] is: a status with neither field is
    a success of [undefined] articles. *)
Theorem banner_shows_the_error_or_the_count net now w response data :
  net (sent w) ingest_request = Ok response ->
  body response = Some data ->
  truthy data = true ->
  (forall message,
     read data "error" = VString message -> message <> "" ->
     status_banner (ingestStatus (ui (run net (ingestArticles now) w).2))
       = Ok (Elem "div" "status error" [Expr (VString message)])) /\
  (truthy (read data "error") = false ->
   status_banner (ingestStatus (ui (run net (ingestArticles now) w).2))
     = (count ← to_text (read data "indexed");
        Ok (Elem "div" "status success"
              [Expr (VString ("Successfully ingested " ++ count ++ " articles"))]))) /\
  (lacks "error" data -> lacks "indexed" data ->
   status_banner (ingestStatus (ui (run net (ingestArticles now) w).2))
     = Ok (Elem "div" "status success"
             [Expr (VString "Successfully ingested undefined articles")])).
Proof.
  intros Hnet Hbody Htruthy. apply json_of_body in Hbody.
  assert (nullish data = false) as Hdata by by destruct data.
  assert (forall k, lacks k data -> read data k = VUndefined) as Hlacks.
  { intros k Hk. destruct data; try done. cbn in *. by rewrite Hk. }
  assert (status_banner (ingestStatus (ui (run net (ingestArticles now) w).2))
          = (if truthy (read data "error")
             then Ok (Elem "div" "status error" [Expr (read data "error")])
             else
               count ← to_text (read data "indexed");
               Ok (Elem "div" "status success"
                     [Expr (VString ("Successfully ingested " ++ count ++ " articles"))])))
    as Hbanner.
  { assert (ingestStatus (ui (run net (ingestArticles now) w).2) = data) as ->.
    { unfold ingestArticles, ingest_with. cbn -[fetchArticles]. rewrite Hnet.
      cbn -[fetchArticles]. rewrite Hbody. cbn -[fetchArticles].
      rewrite (get_read data "error" Hdata). cbn -[fetchArticles read truthy].
      destruct (truthy (read data "error")); cbn -[fetchArticles]; [done |].
      by rewrite run_bind, run_try_catch, run_fetchArticles. }
    unfold status_banner. rewrite Htruthy, !(get_read data _ Hdata).
    cbn -[read truthy]. by destruct (truthy (read data "error")). }
  split; [| split].
  - intros message Hmessage Hne. rewrite Hbanner, Hmessage. cbn.
    by destruct (String.eqb_spec message "").
  - intros Hfalsy. by rewrite Hbanner, Hfalsy.
  - intros Herror Hindexed.
    by rewrite Hbanner, (Hlacks _ Herror), (Hlacks _ Hindexed).
Qed.

(** ** Rendering *)

Lemma map_each_entity_tag_null (items : list JsVal) :
  Exists (fun e => nullish e = true) items ->
  map_each entity_tag items = Raise TypeError.
Proof.
  induction 1 as [e rest He | e rest _ IH].
  - cbn -[entity_tag]. by destruct e.
  - cbn -[entity_tag]. destruct (nullish e) eqn:He.
    + by destruct e.
    + rewrite (entity_tag_shown e He). cbn -[entity_tag]. by rewrite IH.
Qed.

(** X9.  The entities section reads the first six entities and the length of
    the array, and nothing else: two arrays that agree on those render the
    same section, whatever follows the sixth item. *)
Theorem entities_beyond_the_sixth_are_not_read article1 article2 items1 items2 :
  nullish article1 = false ->
  nullish article2 = false ->
  read article1 "entities" = VArray items1 ->
  read article2 "entities" = VArray items2 ->
  take 6 items1 = take 6 items2 ->
  length items1 = length items2 ->
  entities_section article1 = entities_section article2.
Proof.
  intros H1 H2 Hr1 Hr2 Htake Hlength. unfold entities_section.
  rewrite (get_read article1 "entities" H1), (get_read article2 "entities" H2), Hr1, Hr2.
  cbn -[take Nat.ltb map_each]. by rewrite Htake, Hlength.
Qed.

(** X10.  A [null] among the first six entities makes the section, and with
    it the render, throw. *)
Theorem null_entity_breaks_the_section article items i :
  nullish article = false ->
  read article "entities" = VArray items ->
  i < 6 ->
  items !! i = Some VNull ->
  entities_section article = Raise TypeError.
Proof.
  intros Harticle Hread Hi Hnull. unfold entities_section.
  rewrite (get_read article "entities" Harticle), Hread.
  assert ((0 <? length items)%nat = true) as Hpos.
  { apply Nat.ltb_lt. apply lookup_lt_Some in Hnull. lia. }
  cbn -[take Nat.ltb map_each]. rewrite Hpos.
  rewrite map_each_entity_tag_null; [done |].
  apply Exists_exists. exists VNull. split; [| done].
  apply list_elem_of_lookup. exists i. by rewrite lookup_take_lt.
Qed.

(** ** Rendering the articles *)

Section Cards.

Variable toUpperCase : string -> string.
Variable toLocaleDateString : JsVal -> Outcome string.

Lemma map_each_raises {A B} (f : A -> Outcome B) (l : list A) x e :
  x ∈ l -> f x = Raise e -> exists e', map_each f l = Raise e'.
Proof.
  intros Hin Hf. induction l as [| a rest IH]; [by apply elem_of_nil in Hin |].
  cbn. apply elem_of_cons in Hin as [<- | Hin].
  - rewrite Hf. by eexists.
  - destruct (f a) as [e' | b]; [by eexists |]. cbn.
    destruct (IH Hin) as [e' ->]. by eexists.
Qed.

Lemma map_each_succeeds {A B} (f : A -> Outcome B) (l : list A) :
  Forall (fun x => exists y, f x = Ok y) l -> exists ys, map_each f l = Ok ys.
Proof.
  induction 1 as [| x rest [y Hy] _ [ys IH]]; [by eexists |].
  cbn. rewrite Hy, IH. by eexists.
Qed.

Lemma stored_results_primitive response data :
  body response = Some data ->
  nullish data = false ->
  truthy (read data "results") = true ->
  primitive (read data "results") = true ->
  stored_results (Ok response) = read data "results".
Proof.
  intros Hbody Hdata Htruthy Hprimitive. unfold stored_results, json_of.
  cbn -[log_first_article]. rewrite Hbody. cbn -[log_first_article].
  unfold log_first_article. rewrite (get_read data "results" Hdata).
  cbn. rewrite Htruthy. unfold js_or.
  destruct (read data "results") as [| | b | x | s | |]; try done.
  - cbn in *. by rewrite Htruthy.
  - cbn in *. by rewrite Htruthy.
  - destruct s as [| c s]; [done |]. by cbn.
Qed.

(** X11.  The fallback [data.results || []] guards against a missing list,
    not against a wrong one: [results] that is a non-empty string, a number
    other than zero or [true] is stored as it is, and the article list then
    throws when it is rendered. *)
Theorem results_that_are_no_list_break_the_render
    net query currentFilters w response data :
  net (sent w) (search_request query currentFilters) = Ok response ->
  body response = Some data ->
  nullish data = false ->
  truthy (read data "results") = true ->
  primitive (read data "results") = true ->
  articles (ui (run net (fetchArticles query currentFilters) w).2) = read data "results" /\
  article_list toUpperCase toLocaleDateString
    (articles (ui (run net (fetchArticles query currentFilters) w).2))
    = Raise TypeError.
Proof.
  intros Hnet Hbody Hdata Htruthy Hprimitive. rewrite run_fetchArticles. cbn. rewrite Hnet.
  rewrite (stored_results_primitive response data Hbody Hdata Htruthy Hprimitive).
  split; [done |].
  destruct (read data "results") as [| | b | x | s | |]; try done.
  by destruct s.
Qed.

(** X12.  Only the first result is looked at before the list is stored: a
    [null] further down is stored with the rest, and its card then throws
    when the list is rendered. *)
Theorem null_article_is_stored_and_breaks_the_render
    net query currentFilters w response data items top i :
  net (sent w) (search_request query currentFilters) = Ok response ->
  body response = Some data ->
  read data "results" = VArray items ->
  head items = Some top ->
  nullish top = false ->
  items !! i = Some VNull ->
  articles (ui (run net (fetchArticles query currentFilters) w).2) = VArray items /\
  exists e,
    article_list toUpperCase toLocaleDateString
      (articles (ui (run net (fetchArticles query currentFilters) w).2)) = Raise e.
Proof.
  intros Hnet Hbody Hresults Htop Hnullish Hnull. rewrite run_fetchArticles. cbn. rewrite Hnet.
  rewrite (stored_results_array response data items Hbody Hresults) by congruence.
  split; [done |]. unfold article_list.
  destruct items as [| a rest]; [done |]. cbn -[map_each article_card].
  destruct (map_each_raises (article_card toUpperCase toLocaleDateString) (a :: rest)
              VNull TypeError)
    as [e ->]; [| done |].
  - apply list_elem_of_lookup. by exists i.
  - by eexists.
Qed.

Lemma valid_child_falsy v : truthy v = false -> valid_child v = true.
Proof. by destruct v. Qed.

Lemma valid_child_js_or v fallback :
  valid_child v = true -> valid_child (js_or v (VString fallback)) = true.
Proof. intros Hv. unfold js_or. by destruct (truthy v). Qed.

Lemma percentage_of_number score :
  number_or_missing score = true ->
  exists shown, percentage score = Ok shown /\ valid_child shown = true.
Proof.
  intros Hscore. unfold percentage.
  destruct score; try done; destruct (truthy _); by eexists.
Qed.

Lemma text_label (v : JsVal) fallback :
  text_or_missing v = true -> exists s, js_or v (VString fallback) = VString s.
Proof.
  intros Hv. unfold js_or. destruct v; try done; cbn; try by eexists.
  destruct (negb _); by eexists.
Qed.

Lemma article_header_renders article :
  nullish article = false ->
  valid_child (read article "title") = true ->
  exists header, article_header article = Ok header /\ renders header = true.
Proof.
  intros Harticle Htitle. unfold article_header.
  rewrite (get_read article _ Harticle). eexists. split; [reflexivity |].
  cbn -[read js_or]. by rewrite (valid_child_js_or _ "Untitled" Htitle).
Qed.

Lemma article_debug_renders article :
  nullish article = false ->
  text_or_missing (read article "sentiment_overall") = true ->
  text_or_missing (read article "bias_overall") = true ->
  exists debug, article_debug article = Ok debug /\ renders debug = true.
Proof.
  intros Harticle Hsentiment Hbias. unfold article_debug.
  rewrite !(get_read article _ Harticle).
  destruct (text_label _ "NONE" Hsentiment) as [sentiment Hs].
  destruct (text_label _ "NONE" Hbias) as [bias Hb].
  cbn -[read js_or truthy]. rewrite Hs, Hb. by eexists.
Qed.

Lemma summary_section_renders article :
  nullish article = false ->
  valid_child (read article "summary") = true ->
  exists summary, summary_section article = Ok summary /\ renders summary = true.
Proof.
  intros Harticle Hsummary. unfold summary_section.
  rewrite (get_read article _ Harticle). eexists. split; [reflexivity |].
  cbn -[read truthy]. destruct (truthy (read article "summary")); cbn -[read]; [| done].
  by rewrite Hsummary.
Qed.

Lemma map_each_entity_tag_renders (items : list JsVal) :
  Forall (fun e => nullish e = false /\
                   valid_child (read e "name") = true /\
                   valid_child (read e "type") = true) items ->
  exists tags, map_each entity_tag items = Ok tags /\ forallb renders tags = true.
Proof.
  induction 1 as [| e rest (He & Hname & Htype) _ (tags & IH & Htags)]; [by eexists |].
  cbn -[entity_tag]. rewrite (entity_tag_shown e He), IH. eexists. split; [reflexivity |].
  cbn -[read]. by rewrite Hname, Htype, Htags.
Qed.

Lemma article_meta_renders article :
  nullish article = false ->
  valid_child (read article "source_name") = true ->
  (exists shown, toLocaleDateString (read article "published_date") = Ok shown) ->
  exists meta, article_meta toLocaleDateString article = Ok meta /\ renders meta = true.
Proof.
  intros Harticle Hsource [shown Hdate]. unfold article_meta.
  rewrite !(get_read article _ Harticle). cbn -[read truthy js_or]. rewrite Hdate.
  destruct (truthy (read article "published_date")) eqn:Htruthy;
    (eexists; split; [reflexivity |]); cbn -[read js_or];
    rewrite (valid_child_js_or _ "Unknown Source" Hsource); [done |].
  by rewrite (valid_child_falsy _ Htruthy).
Qed.

Lemma analysis_badges_of_plain_fields article :
  nullish article = false ->
  text_or_missing (read article "sentiment_overall") = true ->
  text_or_missing (read article "bias_overall") = true ->
  text_or_missing (read article "language") = true ->
  number_or_missing (read article "sentiment_score") = true ->
  number_or_missing (read article "bias_score") = true ->
  exists badges, analysis_badges toUpperCase article = Ok badges /\ renders badges = true.
Proof.
  intros Harticle Hsentiment Hbias Hlanguage Hsscore Hbscore.
  unfold analysis_badges, sentiment_badge_class, bias_badge_class, language_badge,
    sentiment_badge_children, bias_badge_children.
  rewrite !(get_read article _ Harticle).
  destruct (text_label _ "unknown" Hsentiment) as [sentiment Hs].
  destruct (text_label _ "Unknown" Hsentiment) as [sentiment' Hs'].
  destruct (text_label _ "unknown" Hbias) as [bias Hb].
  destruct (text_label _ "Unknown" Hbias) as [bias' Hb'].
  destruct (text_label _ "unknown" Hlanguage) as [language Hl].
  destruct (percentage_of_number _ Hsscore) as (sshown & Hss & Hsvalid).
  destruct (percentage_of_number _ Hbscore) as (bshown & Hbs & Hbvalid).
  cbn -[read js_or percentage]. rewrite Hs. cbn -[read js_or percentage]. rewrite Hss.
  cbn -[read js_or percentage]. rewrite Hb. cbn -[read js_or percentage]. rewrite Hbs.
  cbn -[read js_or percentage]. rewrite Hl. eexists. split; [reflexivity |].
  cbn -[read js_or]. by rewrite Hs', Hb', Hsvalid, Hbvalid.
Qed.

Lemma entities_section_of_a_list article :
  nullish article = false ->
  (nullish (read article "entities") = true \/
   exists items,
     read article "entities" = VArray items /\
     Forall (fun e => nullish e = false /\
                      valid_child (read e "name") = true /\
                      valid_child (read e "type") = true) (take 6 items)) ->
  exists entities, entities_section article = Ok entities /\ renders entities = true.
Proof.
  intros Harticle Hentities.
  unfold entities_section. rewrite (get_read article "entities" Harticle).
  destruct Hentities as [Hnone | (items & -> & Hitems)].
  - destruct (read article "entities"); try done; by eexists.
  - cbn -[take map_each entity_tag Nat.ltb]. destruct (0 <? length items)%nat; [| by eexists].
    destruct (map_each_entity_tag_renders (take 6 items) Hitems) as (tags & -> & Htags).
    eexists. split; [reflexivity |]. cbn -[take Nat.ltb]. rewrite Htags.
    unfold more_tag. by destruct (6 <? length items)%nat.
Qed.

(** X13.  An article whose labels are text or missing, whose scores are
    numbers or missing, whose title, source and summary are no objects,
    and whose entities are missing or a list whose first six items are not
    [null] and have a name and a type that are no objects, always gets its
    card, as long as printing a date does not throw: the card is made of
    its six parts, in their order, and every child in it is one that React
    DOM accepts. *)
Theorem article_with_plain_fields_gets_its_card article :
  nullish article = false ->
  text_or_missing (read article "sentiment_overall") = true ->
  text_or_missing (read article "bias_overall") = true ->
  text_or_missing (read article "language") = true ->
  number_or_missing (read article "sentiment_score") = true ->
  number_or_missing (read article "bias_score") = true ->
  valid_child (read article "title") = true ->
  valid_child (read article "source_name") = true ->
  valid_child (read article "summary") = true ->
  (exists shown, toLocaleDateString (read article "published_date") = Ok shown) ->
  (nullish (read article "entities") = true \/
   exists items,
     read article "entities" = VArray items /\
     Forall (fun e => nullish e = false /\
                      valid_child (read e "name") = true /\
                      valid_child (read e "type") = true) (take 6 items)) ->
  exists header meta debug badges summary entities,
    article_header article = Ok header /\
    article_meta toLocaleDateString article = Ok meta /\
    article_debug article = Ok debug /\
    analysis_badges toUpperCase article = Ok badges /\
    summary_section article = Ok summary /\
    entities_section article = Ok entities /\
    article_card toUpperCase toLocaleDateString article =
      Ok (Elem "div" "article-card" [header; meta; debug; badges; summary; entities]) /\
    renders (Elem "div" "article-card" [header; meta; debug; badges; summary; entities])
      = true.
Proof.
  intros Harticle Hsentiment Hbias Hlanguage Hsscore Hbscore Htitle Hsource Hsummary
    Hdate Hentities.
  destruct (article_header_renders article Harticle Htitle) as (header & Hh & Hh').
  destruct (article_meta_renders article Harticle Hsource Hdate) as (meta & Hm & Hm').
  destruct (article_debug_renders article Harticle Hsentiment Hbias) as (debug & Hd & Hd').
  destruct (analysis_badges_of_plain_fields article Harticle Hsentiment Hbias Hlanguage
              Hsscore Hbscore) as (badges & Hb & Hb').
  destruct (summary_section_renders article Harticle Hsummary) as (summary & Hs & Hs').
  destruct (entities_section_of_a_list article Harticle Hentities) as (entities & He & He').
  exists header, meta, debug, badges, summary, entities.
  repeat (split; [done |]). split.
  - unfold article_card, log_article. rewrite !(get_read article _ Harticle).
    cbn -[article_header article_meta article_debug analysis_badges summary_section
          entities_section read].
    rewrite Hh. cbn -[article_meta article_debug analysis_badges summary_section
                      entities_section read].
    rewrite Hm. cbn -[article_debug analysis_badges summary_section entities_section read].
    rewrite Hd. cbn -[analysis_badges summary_section entities_section read].
    rewrite Hb. cbn -[summary_section entities_section read].
    rewrite Hs. cbn -[entities_section read].
    by rewrite He.
  - cbn [renders forallb]. by rewrite Hh', Hm', Hd', Hb', Hs', He'.
Qed.

(** X14.  A [bias_overall] or a [language] that is truthy but no string (a
    number, [true], a list, an object) makes the card throw: [replace] and
    [toUpperCase] are methods of strings. *)
Theorem label_that_is_no_text_breaks_the_card article k :
  nullish article = false ->
  k ∈ ["bias_overall"; "language"] ->
  truthy (read article k) = true ->
  text_or_missing (read article k) = false ->
  exists e, article_card toUpperCase toLocaleDateString article = Raise e.
Proof.
  intros Harticle Hk Htruthy Htext.
  assert (exists e, analysis_badges toUpperCase article = Raise e) as [e Hbadges].
  { unfold analysis_badges, bias_badge_class, language_badge.
    destruct (sentiment_badge_class article) as [e | ?]; [by eexists |].
    cbn -[sentiment_badge_children bias_badge_children].
    destruct (sentiment_badge_children article) as [e | ?]; [by eexists |].
    cbn -[bias_badge_children]. rewrite !(get_read article _ Harticle).
    cbn -[bias_badge_children read]. unfold js_or.
    set_unfold in Hk. destruct Hk as [-> | [-> | []]].
    - rewrite Htruthy. destruct (read article "bias_overall"); try done; by eexists.
    - destruct (on_string replace_hyphen _) as [e | ?]; [by eexists |].
      cbn -[bias_badge_children read].
      destruct (bias_badge_children article) as [e | ?]; [by eexists |].
      cbn -[read]. rewrite Htruthy.
      destruct (read article "language"); try done; by eexists. }
  unfold article_card.
  destruct (log_article article) as [e' | ?]; [by eexists |]. cbn -[analysis_badges].
  destruct (article_header article) as [e' | ?]; [by eexists |]. cbn -[analysis_badges].
  destruct (article_meta toLocaleDateString article) as [e' | ?]; [by eexists |].
  cbn -[analysis_badges].
  destruct (article_debug article) as [e' | ?]; [by eexists |]. cbn -[analysis_badges].
  rewrite Hbadges. by eexists.
Qed.

Lemma replace_hyphen_first prefix suffix :
  hyphens prefix = 0 ->
  replace_hyphen (prefix ++ "-" ++ suffix) = (prefix ++ suffix)%string.
Proof.
  induction prefix as [| c prefix IH]; [done |].
  change (String c prefix +:+ "-" +:+ suffix) with (String c (prefix +:+ "-" +:+ suffix)).
  change (String c prefix +:+ suffix) with (String c (prefix +:+ suffix)).
  cbn [hyphens replace_hyphen].
  destruct (Ascii.eqb c "-"%char); [done |]. intros Hnone. f_equal. by apply IH.
Qed.

Lemma replace_hyphen_none label : hyphens label = 0 -> replace_hyphen label = label.
Proof.
  induction label as [| c label IH]; [done |]. cbn [hyphens replace_hyphen].
  destruct (Ascii.eqb c "-"%char); [done |]. intros Hnone. by rewrite IH.
Qed.

(** X15.  The class of the bias badge is [badge bias-] and the label
    without its first hyphen: what stands before that hyphen and what
    follows it, later hyphens included, are kept as they are.  A label
    without a hyphen is kept whole, and a label that is missing or empty
    gives [unknown]. *)
Theorem bias_class_drops_one_hyphen article prefix suffix :
  nullish article = false ->
  hyphens prefix = 0 ->
  (read article "bias_overall" = VString (prefix ++ "-" ++ suffix) ->
   bias_badge_class article = Ok ("badge bias-" ++ prefix ++ suffix)%string) /\
  (read article "bias_overall" = VString prefix -> prefix <> "" ->
   bias_badge_class article = Ok ("badge bias-" ++ prefix)%string) /\
  (truthy (read article "bias_overall") = false ->
   bias_badge_class article = Ok "badge bias-unknown").
Proof.
  intros Harticle Hprefix. unfold bias_badge_class.
  rewrite (get_read article _ Harticle). cbn -[read truthy replace_hyphen].
  unfold js_or. split; [| split].
  - intros ->. assert (truthy (VString (prefix ++ "-" ++ suffix)) = true) as ->.
    { by destruct prefix. }
    cbn -[replace_hyphen]. by rewrite (replace_hyphen_first prefix suffix Hprefix).
  - intros -> Hne. assert (truthy (VString prefix) = true) as ->.
    { cbn. by destruct (String.eqb_spec prefix ""). }
    cbn -[replace_hyphen]. by rewrite (replace_hyphen_none prefix Hprefix).
  - by intros ->.
Qed.

(** X16.  A title, a source or a summary that is text or missing is never
    shown blank: the heading, the source and the paragraph print the text
    when there is some, and [Untitled], [Unknown Source] and [No summary
    available] when it is missing or empty. *)
Theorem missing_text_falls_back article :
  nullish article = false ->
  text_or_missing (read article "title") = true ->
  text_or_missing (read article "source_name") = true ->
  text_or_missing (read article "summary") = true ->
  truthy (read article "published_date") = false ->
  exists title source summary,
    article_header article
      = Ok (Elem "div" "article-header"
              [ Elem "h2" "" [Expr (VString title)];
                Elem "a" "external-link" [Text "ðŸ”—"] ]) /\
    article_meta toLocaleDateString article
      = Ok (Elem "div" "article-meta"
              [ Elem "span" "source" [Expr (VString source)];
                Expr (read article "published_date") ]) /\
    summary_section article
      = Ok (Elem "div" "summary"
              [Elem "strong" "" [Text "Summary:"]; Elem "p" "" [summary]]) /\
    title <> "" /\ source <> "" /\ blank summary = false /\
    (forall text, read article "title" = VString text -> text <> "" -> title = text) /\
    (truthy (read article "title") = false -> title = "Untitled") /\
    (forall text, read article "source_name" = VString text -> text <> "" ->
                  source = text) /\
    (truthy (read article "source_name") = false -> source = "Unknown Source") /\
    (forall text, read article "summary" = VString text -> text <> "" ->
                  summary = Expr (VString text)) /\
    (truthy (read article "summary") = false -> summary = Text "No summary available").
Proof.
  intros Harticle Htitle Hsource Hsummary Hdate.
  unfold article_header, article_meta, summary_section.
  rewrite !(get_read article _ Harticle). cbn -[read truthy js_or]. rewrite Hdate.
  cbn -[read truthy js_or].
  assert (forall v fallback,
             text_or_missing v = true -> fallback <> "" ->
             exists shown,
               js_or v (VString fallback) = VString shown /\ shown <> "" /\
               (forall text, v = VString text -> text <> "" -> shown = text) /\
               (truthy v = false -> shown = fallback)) as Hlabel.
  { intros v fallback Hv Hfallback. unfold js_or.
    destruct v as [| | | | text | |]; try done; try by (exists fallback).
    cbn. destruct (String.eqb_spec text "") as [-> | Hne]; cbn.
    - exists fallback. split; [done |]. split; [done |]. split; [| done].
      by intros ? [= <-].
    - exists text. split; [done |]. split; [done |]. split; [| done].
      by intros ? [= <-]. }
  destruct (Hlabel _ "Untitled" Htitle) as (title & -> & Ht & Ht1 & Ht2); [done |].
  destruct (Hlabel _ "Unknown Source" Hsource) as (source & -> & Hs & Hs1 & Hs2); [done |].
  exists title, source. eexists.
  split; [reflexivity |]. split; [reflexivity |]. split; [reflexivity |].
  split; [done |]. split; [done |].
  split; [| split; [done |]; split; [done |]; split; [done |]; split; [done |]].
  - destruct (read article "summary") as [| | | | [| c text] | |]; done.
  - split.
    + intros text -> Hne. cbn. by destruct (String.eqb_spec text "").
    + by intros ->.
Qed.

(** X17.  The guards [v && ...] of the date, of the entities and of the
    banner print a falsy number: a [published_date], an [entities] or a
    status that is [0] or [NaN] is handed to React as that number, which
    prints it. *)
Theorem falsy_numbers_pass_the_guards article x :
  nullish article = false ->
  truthy (VNumber x) = false ->
  (read article "published_date" = VNumber x ->
   article_meta toLocaleDateString article
     = Ok (Elem "div" "article-meta"
             [ Elem "span" "source"
                 [Expr (js_or (read article "source_name") (VString "Unknown Source"))];
               Expr (VNumber x) ])) /\
  (read article "entities" = VNumber x ->
   entities_section article = Ok (Expr (VNumber x))) /\
  status_banner (VNumber x) = Ok (Expr (VNumber x)) /\
  blank (Expr (VNumber x)) = false.
Proof.
  intros Harticle Hfalsy. split; [| split; [| split; [| done]]].
  - intros Hdate. unfold article_meta. rewrite !(get_read article _ Harticle), Hdate.
    cbn -[read truthy js_or]. by rewrite Hfalsy.
  - intros Hentities. unfold entities_section.
    rewrite (get_read article _ Harticle), Hentities.
    cbn -[truthy]. by rewrite Hfalsy.
  - unfold status_banner. by rewrite Hfalsy.
Qed.

End Cards.

(** ** The event loop: what is sent, and the filters *)


Lemma within_bind {A B} P R (m : Async A) (f : A -> Async B) :
  Within P R m -> (forall a, Within P R (f a)) -> Within P R (bind m f).
Proof. intros Hm Hf. induction Hm; cbn; try constructor; auto. Qed.

Lemma within_try_catch {A} P R (m : Async A) (h : Exn -> Async A) :
  Within P R m -> (forall e, Within P R (h e)) -> Within P R (try_catch m h).
Proof. intros Hm Hh. induction Hm; cbn; try constructor; auto. Qed.

Lemma within_eval {A} P R (o : Outcome A) : Within P R (eval o).
Proof. destruct o; constructor. Qed.

Lemma within_fetchArticles P R query currentFilters :
  (forall b, P (setLoading b)) ->
  (forall v, P (setArticles v)) ->
  R (search_request query currentFilters) ->
  Within P R (fetchArticles query currentFilters).
Proof.
  intros Hloading Harticles Hrequest. unfold fetchArticles.
  apply within_bind; [repeat constructor; done | intros _].
  apply within_bind; [| intros; repeat constructor; done].
  apply within_try_catch; [| intros; repeat constructor; done].
  apply within_bind; [constructor; [done | apply within_eval] | intros response].
  apply within_bind; [constructor; apply within_eval | intros data].
  apply within_bind; [apply within_eval | intros _].
  apply within_bind; [apply within_eval | intros results].
  repeat constructor; done.
Qed.

Lemma within_ingestArticles P R now :
  (forall b, P (setLoading b)) ->
  (forall v, P (setArticles v)) ->
  (forall b, P (setIngesting b)) ->
  (forall v, P (setIngestStatus v)) ->
  R ingest_request ->
  R (search_request (searchQuery now) (filters now)) ->
  Within P R (ingestArticles now).
Proof.
  intros Hloading Harticles Hingesting Hstatus Hpost Hget.
  unfold ingestArticles, ingest_with.
  apply within_bind; [repeat constructor; done | intros _].
  apply within_bind; [repeat constructor; done | intros _].
  apply within_bind; [| intros; repeat constructor; done].
  apply within_try_catch; [| intros; repeat constructor; done].
  apply within_bind; [constructor; [done | apply within_eval] | intros response].
  apply within_bind; [constructor; apply within_eval | intros data].
  apply within_bind; [repeat constructor; done | intros _].
  apply within_bind; [apply within_eval | intros error].
  destruct (negb (truthy error)); [by apply within_fetchArticles | constructor].
Qed.

Lemma valid_initial_filters : valid_filters initial_filters.
Proof.
  intros k v. unfold initial_filters.
  rewrite !lookup_insert_Some, lookup_empty.
  unfold offers, select_options.
  intros [[<- <-] | [_ [[<- <-] | [_ [[<- <-] | [_ [=]]]]]]].
  - exists [""; "en"; "hi"]. set_solver.
  - exists [""; "positive"; "neutral"; "negative"]. set_solver.
  - exists [""; "neutral"; "left-leaning"; "right-leaning";
            "pro-government"; "anti-government"]. set_solver.
Qed.

Lemma valid_filters_insert f filterType value :
  valid_filters f -> offers filterType value ->
  valid_filters (<[filterType := value]> f).
Proof.
  intros Hf Hoffer k v. rewrite lookup_insert_Some.
  intros [[<- <-] | [_ Hk]]; [done | by apply Hf].
Qed.

Lemma keeps_filters_valid_apply s u :
  keeps_filters_valid s ->
  valid_filters (filters u) -> valid_filters (filters (apply_setter s u)).
Proof. by destruct s. Qed.

Lemma advance_within (m : Async unit) w :
  Within keeps_filters_valid expected_request m ->
  valid_filters (filters (ui w)) ->
  Forall expected_request (sent w) ->
  valid_filters (filters (ui (advance m w).1)) /\
  Forall expected_request (sent (advance m w).1) /\
  forall t, (advance m w).2 = Some t ->
    rest_of (Within keeps_filters_valid expected_request) t.
Proof.
  intros Hm. revert w. induction Hm; intros w Hvalid Hsent; cbn; try done.
  - apply IHHm; [by apply keeps_filters_valid_apply | done].
  - split; [done |]. split; [| by intros t [= <-]].
    apply Forall_app. split; [done |]. by apply Forall_singleton.
  - split; [done |]. split; [done |]. by intros t [= <-].
Qed.

Lemma orderly_spawn op m s :
  Within keeps_filters_valid expected_request m ->
  orderly s -> orderly (spawn op m s).
Proof.
  intros Hm (Hvalid & Hsent & Hpending). unfold spawn.
  destruct (advance_within m (world s) Hm Hvalid Hsent) as (Hv & Hs & Ht).
  destruct (advance m (world s)) as [w' t]. cbn in *.
  split; [done |]. split; [done |]. cbn.
  apply Forall_app. split; [done |].
  destruct t as [t |]; [| done]. apply Forall_singleton. by apply Ht.
Qed.

Lemma orderly_resume s i op t m :
  orderly s ->
  pending s !! i = Some (op, t) ->
  (forall P, rest_of P t -> P m) ->
  orderly (resume i op m s).
Proof.
  intros (Hvalid & Hsent & Hpending) Hi Hm. unfold resume.
  pose proof (Forall_lookup_1 _ _ _ _ Hpending Hi) as Ht. cbn in Ht. apply Hm in Ht.
  destruct (advance_within m (world s) Ht Hvalid Hsent) as (Hv & Hs & Ht').
  destruct (advance m (world s)) as [w' [t' |]]; cbn in *.
  - split; [done |]. split; [done |]. cbn. apply Forall_insert; [done |]. by apply Ht'.
  - split; [done |]. split; [done |]. cbn. by apply Forall_delete.
Qed.

Lemma expected_search_request query f :
  valid_filters f -> expected_request (search_request query f).
Proof. intros Hf. right. by exists query, f. Qed.

Lemma reachable_orderly s : reachable s -> orderly s.
Proof.
  induction 1 as [| s s' _ IH Hstep].
  - apply orderly_spawn.
    + apply within_fetchArticles; try done.
      apply expected_search_request, valid_initial_filters.
    + split; [apply valid_initial_filters |]. split; constructor.
  - pose proof IH as (Hvalid & _ & _). destruct Hstep.
    + apply orderly_spawn; [| done].
      apply within_ingestArticles; try done; [by left |].
      by apply expected_search_request.
    + apply orderly_spawn; [| done].
      apply within_fetchArticles; try done. by apply expected_search_request.
    + apply orderly_spawn; [| done]. unfold handleFilterChange.
      apply within_bind.
      * repeat constructor. by apply valid_filters_insert.
      * intros _. apply within_fetchArticles; try done.
        by apply expected_search_request, valid_filters_insert.
    + apply orderly_spawn; [| done]. repeat constructor.
    + eapply orderly_resume; [done | eassumption | intros P HP; apply HP].
    + eapply orderly_resume; [done | eassumption | intros P HP; apply HP].
Qed.

(** X19.  In every state the event loop can reach, each filter holds a value
    its select offers, and every request that was sent is the ingest request
    or a search: a GET of the search URL whose parameters are not empty and
    are the query, [size=20], or a filter with a value its select offers. *)
Theorem only_expected_requests_are_sent s :
  reachable s ->
  valid_filters (filters (ui (world s))) /\
  forall req, req ∈ sent (world s) ->
    req = ingest_request \/
    (method req = GET /\
     url req = "http://localhost:8000/articles/search" /\
     forall k v, (k, v) ∈ params req ->
       v <> "" /\ (k = "q" \/ (k = "size" /\ v = "20") \/ offers k v)).
Proof.
  intros Hs. destruct (reachable_orderly s Hs) as (Hvalid & Hsent & _).
  split; [done |]. intros req Hreq.
  rewrite Forall_forall in Hsent.
  destruct (Hsent req Hreq) as [-> | (query & f & Hf & ->)]; [by left |].
  right. split; [done |]. split; [done |].
  intros k v Hkv. cbn in Hkv. apply search_params_spec in Hkv.
  destruct Hkv as [(-> & -> & Hq) | [(-> & Hl & Hv) | [(-> & Hl & Hv) |
                  [(-> & Hl & Hv) | [-> ->]]]]].
  - split; [done | by left].
  - split; [done |]. right. right. by apply Hf.
  - split; [done |]. right. right. by apply Hf.
  - split; [done |]. right. right. by apply Hf.
  - split; [done |]. right. by left.
Qed.

(** ** The event loop: the loading screen *)

Lemma straight_bind {A B} (m : Async A) (f : A -> Async B) :
  Straight m -> (forall a, Straight (f a)) -> Straight (bind m f).
Proof. intros Hm Hf. induction Hm; cbn; try constructor; auto. Qed.

Lemma straight_try_catch {A} (m : Async A) (h : Exn -> Async A) :
  Straight m -> (forall e, Straight (h e)) -> Straight (try_catch m h).
Proof. intros Hm Hh. induction Hm; cbn; try constructor; auto. Qed.

Lemma unloading_bind {A B} (m : Async A) (f : A -> Async B) :
  Unloading m -> (forall a, Straight (f a)) -> Unloading (bind m f).
Proof.
  intros Hm Hf. induction Hm; cbn.
  - apply unloading_last. by apply straight_bind.
  - by apply unloading_call.
  - by apply unloading_fetch.
  - by apply unloading_json.
Qed.

Lemma unloading_try_catch {A} (m : Async A) (h : Exn -> Async A) :
  Unloading m -> (forall e, Straight (h e)) -> Unloading (try_catch m h).
Proof.
  intros Hm Hh. induction Hm; cbn.
  - apply unloading_last. by apply straight_try_catch.
  - by apply unloading_call.
  - by apply unloading_fetch.
  - by apply unloading_json.
Qed.

Lemma unloading_finally {A} (m : Async A) (h : Exn -> Async A) :
  Within (fun s => ~ writes_loading s) (fun _ => True) m ->
  (forall e, Unloading (bind (h e) finally_loaded)) ->
  Unloading (bind (try_catch m h) finally_loaded).
Proof.
  intros Hm Hh. induction Hm; cbn; auto.
  - apply unloading_last. constructor.
  - by apply unloading_call.
  - by apply unloading_fetch.
  - by apply unloading_json.
Qed.

Lemma straight_tidy {A} (m : Async A) : Straight m -> Tidy m.
Proof. induction 1; by constructor. Qed.

Lemma tidy_bind_l {A B} (m : Async A) (f : A -> Async B) :
  Within (fun s => ~ writes_loading s) (fun _ => True) m ->
  (forall a, Tidy (f a)) -> Tidy (bind m f).
Proof. intros Hm Hf. induction Hm; cbn; auto; by constructor. Qed.

Lemma tidy_bind_r {A B} (m : Async A) (f : A -> Async B) :
  Tidy m -> (forall a, Straight (f a)) -> Tidy (bind m f).
Proof.
  intros Hm Hf. induction Hm; cbn; try (constructor; by auto).
  - by apply straight_tidy.
  - apply tidy_load. by apply unloading_bind.
Qed.

Lemma tidy_try_catch {A} (m : Async A) (h : Exn -> Async A) :
  Tidy m -> (forall e, Straight (h e)) -> Tidy (try_catch m h).
Proof.
  intros Hm Hh. induction Hm; cbn; try (constructor; by auto).
  - by apply straight_tidy.
  - apply tidy_load. by apply unloading_try_catch.
Qed.

Lemma not_writes_loading s : (forall b, s <> setLoading b) -> ~ writes_loading s.
Proof. intros Hs [b ->]. by destruct (Hs b). Qed.

(** What [fetchArticles] does before its first [await], and the shape of
    the rest. *)
Lemma advance_fetchArticles query currentFilters w :
  exists k,
    advance (fetchArticles query currentFilters) w =
      (mkWorld (apply_setter (setLoading true) (ui w))
         (sent w ++ [search_request query currentFilters]),
       Some (OnFetch (search_request query currentFilters) k)) /\
    forall r, Unloading (k r).
Proof.
  unfold fetchArticles. cbn. eexists. split; [reflexivity |]. intros r.
  apply (unloading_finally
           (bind (eval r) (fun response : Response =>
              bind (json response) (fun data =>
                bind (eval (log_first_article data)) (fun _ =>
                  bind (eval (get data "results")) (fun results =>
                    call (setArticles (js_or results (VArray []))))))))).
  - apply within_bind; [apply within_eval | intros response].
    apply within_bind; [constructor; apply within_eval | intros data].
    apply within_bind; [apply within_eval | intros _].
    apply within_bind; [apply within_eval | intros results].
    repeat constructor. by apply not_writes_loading.
  - intros e. cbn. apply unloading_call; [by apply not_writes_loading |].
    apply unloading_last. constructor.
Qed.

Lemma tidy_fetchArticles query currentFilters :
  Tidy (fetchArticles query currentFilters).
Proof.
  destruct (advance_fetchArticles query currentFilters (mkWorld initial_ui []))
    as (k & Hadvance & Hk).
  unfold fetchArticles in *. cbn in *. injection Hadvance as <-.
  apply tidy_load. by apply unloading_fetch.
Qed.

Lemma tidy_ingestArticles now : Tidy (ingestArticles now).
Proof.
  unfold ingestArticles, ingest_with.
  apply tidy_bind_l; [repeat constructor; by apply not_writes_loading | intros _].
  apply tidy_bind_l; [repeat constructor; by apply not_writes_loading | intros _].
  apply tidy_bind_r; [| intros; repeat constructor; by apply not_writes_loading].
  apply tidy_try_catch; [| intros; repeat constructor; by apply not_writes_loading].
  apply tidy_bind_l; [constructor; [done | apply within_eval] | intros response].
  apply tidy_bind_l; [constructor; apply within_eval | intros data].
  apply tidy_bind_l; [repeat constructor; by apply not_writes_loading | intros _].
  apply tidy_bind_l; [apply within_eval | intros error].
  destruct (negb (truthy error)); [apply tidy_fetchArticles | constructor].
Qed.

Lemma apply_setter_loading s u :
  ~ writes_loading s -> loading (apply_setter s u) = loading u.
Proof. intros Hs. destruct s; cbn; try done. destruct Hs. by eexists. Qed.

Lemma advance_straight (m : Async unit) w :
  Straight m ->
  (advance m w).2 = None /\ loading (ui (advance m w).1) = loading (ui w).
Proof.
  intros Hm. revert w. induction Hm; intros w; cbn [advance fst snd]; try done.
  destruct (IHHm (mkWorld (apply_setter s (ui w)) (sent w))) as [-> ->].
  split; [done |]. by apply apply_setter_loading.
Qed.

Lemma advance_unloading (m : Async unit) w :
  Unloading m ->
  match (advance m w).2 with
  | Some t => rest_of Unloading t /\ loading (ui (advance m w).1) = loading (ui w)
  | None => loading (ui (advance m w).1) = false
  end.
Proof.
  intros Hm. revert w. induction Hm; intros w; cbn [advance fst snd]; try done.
  - by destruct (advance_straight k (mkWorld (apply_setter (setLoading false) (ui w)) (sent w)))
      as [-> ->].
  - specialize (IHHm (mkWorld (apply_setter s (ui w)) (sent w))).
    destruct (advance k _) as [w' [t |]]; cbn in *; [| done].
    destruct IHHm as [Ht ->]. split; [done |]. by apply apply_setter_loading.
Qed.

Lemma advance_tidy (m : Async unit) w :
  Tidy m ->
  match (advance m w).2 with
  | Some t =>
      rest_of Unloading t \/
      (rest_of Tidy t /\ loading (ui (advance m w).1) = loading (ui w))
  | None => loading (ui (advance m w).1) = true -> loading (ui w) = true
  end.
Proof.
  intros Hm. revert w.
  induction Hm as [a | e | k Hk | s k Hs Hk IH | req k Hk IH | resp k Hk IH];
    intros w; cbn [advance fst snd].
  - done.
  - done.
  - pose proof (advance_unloading k (mkWorld (apply_setter (setLoading true) (ui w)) (sent w)) Hk)
      as Hadvance.
    destruct (advance k _) as [w' [t |]]; cbn in *.
    + left. by destruct Hadvance.
    + congruence.
  - specialize (IH (mkWorld (apply_setter s (ui w)) (sent w))).
    destruct (advance k _) as [w' [t |]]; cbn in *.
    + destruct IH as [Ht | [Ht ->]]; [by left |]. right. split; [done |].
      by apply apply_setter_loading.
    + intros Hl. apply IH in Hl. by rewrite apply_setter_loading in Hl.
  - right. by split.
  - right. by split.
Qed.

Lemma accounted_spawn op m s : Tidy m -> accounted s -> accounted (spawn op m s).
Proof.
  intros Hm [Hall Hsome]. unfold spawn.
  pose proof (advance_tidy m (world s) Hm) as Hadvance.
  destruct (advance m (world s)) as [w' [t |]]; cbn in *; split; cbn.
  - apply Forall_app. split; [done |]. apply Forall_singleton.
    destruct Hadvance as [Ht | [Ht _]]; [by right | by left].
  - intros Hl. apply Exists_app.
    destruct Hadvance as [Ht | [_ Heq]]; [right; by apply Exists_cons_hd |].
    left. apply Hsome. congruence.
  - by rewrite app_nil_r.
  - rewrite app_nil_r. intros Hl. by apply Hsome, Hadvance.
Qed.

Lemma Exists_insert_or {A} (P : A -> Prop) (l : list A) i x y :
  Exists P l -> l !! i = Some x -> P x \/ Exists P (<[i := y]> l).
Proof.
  intros (z & Hz & HP)%Exists_exists Hi.
  apply list_elem_of_lookup in Hz as [j Hj].
  destruct (decide (i = j)) as [-> | Hne].
  - left. congruence.
  - right. apply Exists_exists. exists z. split; [| done].
    apply list_elem_of_lookup. exists j. by rewrite list_lookup_insert_ne.
Qed.

Lemma Exists_delete_or {A} (P : A -> Prop) (l : list A) i x :
  Exists P l -> l !! i = Some x -> P x \/ Exists P (delete i l).
Proof.
  intros HP Hi. rewrite <- (take_drop_middle l i x Hi) in HP.
  rewrite delete_take_drop.
  apply Exists_app in HP as [HP | HP]; [right; apply Exists_app; by left |].
  apply Exists_cons in HP as [HP | HP]; [by left |].
  right. apply Exists_app. by right.
Qed.

Lemma Exists_insert_here {A} (P : A -> Prop) (l : list A) i x y :
  l !! i = Some x -> P y -> Exists P (<[i := y]> l).
Proof.
  intros Hi Hy. apply Exists_exists. exists y. split; [| done].
  apply list_elem_of_lookup. exists i.
  apply list_lookup_insert_eq. by eapply lookup_lt_Some.
Qed.

Lemma accounted_resume s i op t m :
  accounted s ->
  pending s !! i = Some (op, t) ->
  (forall P, rest_of P t -> P m) ->
  accounted (resume i op m s).
Proof.
  intros [Hall Hsome] Hi Hm. unfold resume.
  pose proof (Forall_lookup_1 _ _ _ _ Hall Hi) as Hkind. cbn in Hkind.
  assert (Tidy m \/ Unloading m) as Hkind'.
  { destruct Hkind as [Ht | Ht]; [left | right]; by apply Hm. }
  pose proof (fun H => advance_unloading m (world s) H) as HU.
  pose proof (fun H => advance_tidy m (world s) H) as HT.
  destruct (advance m (world s)) as [w' [t' |]]; cbn in *; split; cbn.
  - apply Forall_insert; [done |].
    destruct Hkind' as [Htidy | Hun].
    + destruct (HT Htidy) as [Ht' | [Ht' _]]; [by right | by left].
    + right. by destruct (HU Hun).
  - intros Hl.
    assert (Unloading m -> Exists (fun p => rest_of Unloading p.2)
              (<[i := (op, t')]> (pending s))) as Hhere.
    { intros Hun. apply (Exists_insert_here _ _ _ _ _ Hi). by destruct (HU Hun). }
    destruct Hkind' as [Htidy | Hun]; [| by apply Hhere].
    destruct (HT Htidy) as [Ht' | [_ Heq]]; [by apply (Exists_insert_here _ _ _ _ _ Hi) |].
    rewrite Heq in Hl.
    destruct (Exists_insert_or _ _ _ _ (op, t') (Hsome Hl) Hi) as [Hx | Hins]; [| done].
    apply Hhere. by apply Hm.
  - by apply Forall_delete.
  - intros Hl. destruct Hkind' as [Htidy | Hun]; [| by rewrite (HU Hun) in Hl].
    destruct (Exists_delete_or _ _ _ _ (Hsome (HT Htidy Hl)) Hi) as [Hx | Hd]; [| done].
    assert (Unloading m) as Hun by (by apply Hm). by rewrite (HU Hun) in Hl.
Qed.

Lemma reachable_accounted s : reachable s -> accounted s.
Proof.
  induction 1 as [| s s' _ IH Hstep].
  - apply accounted_spawn; [apply tidy_fetchArticles |].
    split; [constructor | done].
  - destruct Hstep.
    + apply accounted_spawn; [apply tidy_ingestArticles | done].
    + apply accounted_spawn; [apply tidy_fetchArticles | done].
    + apply accounted_spawn; [| done]. unfold handleFilterChange.
      apply tidy_bind_l; [| intros _; apply tidy_fetchArticles].
      repeat constructor. by apply not_writes_loading.
    + apply accounted_spawn; [| done].
      repeat constructor. by apply not_writes_loading.
    + eapply accounted_resume; [done | eassumption | intros P HP; apply HP].
    + eapply accounted_resume; [done | eassumption | intros P HP; apply HP].
Qed.

(** X20.  In every state the event loop can reach, the loading screen is up
    only while some call is suspended that will take it down: a call that
    sets [loading] to false on every path, after its last [await]. *)
Theorem loading_screen_is_accounted_for s :
  reachable s ->
  loading (ui (world s)) = true ->
  exists i op t, pending s !! i = Some (op, t) /\ rest_of Unloading t.
Proof.
  intros Hs Hl. destruct (reachable_accounted s Hs) as [_ Hsome].
  pose proof (Hsome Hl) as Hex. apply Exists_exists in Hex as ([op t] & Hin & Ht).
  apply list_elem_of_lookup in Hin as [i Hi]. by exists i, op, t.
Qed.

Lemma in_flight_click_ingest s : in_flight Ingest (click_ingest s) <> 0.
Proof.
  unfold click_ingest, spawn, in_flight.
  destruct (advance_ingestArticles (ui (world s)) (world s)) as (k & -> & _). cbn.
  rewrite filter_app, length_app, filter_cons. case_decide; [cbn; lia | done].
Qed.

Lemma serial_start s m :
  serial s ->
  controls_shown (ui (world s)) = true ->
  (forall w, exists t,
      (advance m w).2 = Some t /\ rest_of Unloading t /\
      loading (ui (advance m w).1) = true) ->
  serial (spawn Search m s).
Proof.
  intros Hs Hshown Hm. unfold controls_shown in Hshown. apply negb_true_iff in Hshown.
  destruct Hs as [[Hnone _] | (t & _ & _ & Hl)]; [| congruence].
  unfold spawn. destruct (Hm (world s)) as (t & Ht & Hun & Hl).
  destruct (advance m (world s)) as [w' t']. cbn in *. subst t'.
  right. exists t. by rewrite Hnone.
Qed.

Lemma serial_resume s i op t m :
  serial s ->
  pending s !! i = Some (op, t) ->
  (forall P, rest_of P t -> P m) ->
  serial (resume i op m s).
Proof.
  intros [[Hnone _] | (t0 & Hone & Hun & Hl)] Hi Hm; [by rewrite Hnone in Hi |].
  rewrite Hone in Hi. destruct i as [| i]; [| done]. injection Hi as <- <-.
  apply Hm in Hun. unfold resume.
  pose proof (advance_unloading m (world s) Hun) as Hadvance.
  destruct (advance m (world s)) as [w' [t' |]]; cbn in *; rewrite Hone.
  - right. exists t'. destruct Hadvance as [Ht' Hsame]. cbn. by rewrite Hsame.
  - by left.
Qed.

Lemma browsing_serial s : browsing s -> serial s.
Proof.
  induction 1 as [| s s' _ IH Hstep Hquiet].
  - unfold mounted, spawn, onMount. cbn [world pending].
    destruct (advance_fetchArticles "" (filters initial_ui) (mkWorld initial_ui []))
      as (k & -> & Hun).
    right. by exists (OnFetch (search_request "" (filters initial_ui)) k).
  - destruct Hstep.
    + by destruct (in_flight_click_ingest s).
    + apply serial_start; [done | done |]. intros w. unfold handleSearch.
      destruct (advance_fetchArticles (searchQuery (ui (world s))) (filters (ui (world s))) w)
        as (k & -> & Hun).
      by eexists.
    + apply serial_start; [done | done |]. intros w. unfold handleFilterChange.
      cbn [mbind Async_bind bind call advance].
      destruct (advance_fetchArticles (searchQuery (ui (world s)))
                  (<[filterType := value]> (filters (ui (world s))))
                  (mkWorld (apply_setter
                              (setFilters (<[filterType := value]> (filters (ui (world s)))))
                              (ui w)) (sent w)))
        as (k & -> & Hun).
      by eexists.
    + unfold type_query, spawn, handleQueryInput. cbn. rewrite app_nil_r.
      destruct IH as [[Hnone Hl] | (t & Hone & Hun & Hl)]; [by left | right; by exists t].
    + eapply serial_resume; [done | eassumption | intros P HP; apply HP].
    + eapply serial_resume; [done | eassumption | intros P HP; apply HP].
Qed.

(** X21.  As long as the ingest button is not clicked, searches do not
    overlap: at most one call is suspended, it is a search, and the loading
    screen is up exactly while it is. *)
Theorem searches_do_not_overlap s :
  browsing s ->
  length (pending s) = (if loading (ui (world s)) then 1 else 0) /\
  in_flight Search s = length (pending s).
Proof.
  intros Hs. unfold in_flight.
  destruct (browsing_serial s Hs) as [[-> ->] | (t & -> & _ & ->)]; [done |].
  rewrite filter_cons. by case_decide.
Qed.

(** ** The event loop: the last response wins *)

Lemma advance_fetchArticles_tail query currentFilters w :
  exists k,
    advance (fetchArticles query currentFilters) w =
      (mkWorld (apply_setter (setLoading true) (ui w))
         (sent w ++ [search_request query currentFilters]),
       Some (OnFetch (search_request query currentFilters) k)) /\
    search_tail (OnFetch (search_request query currentFilters) k).
Proof.
  unfold fetchArticles. cbn. eexists. split; [reflexivity |].
  intros [e | resp] w'; cbn; [done |]. eexists. split; [reflexivity |].
  intros w''. unfold stores, stored_results. cbn.
  destruct (json_of resp) as [e | data]; cbn; [done |].
  destruct (log_first_article data) as [e | []]; cbn; [done |].
  destruct (get data "results") as [e | results]; cbn; done.
Qed.

Lemma searching_spawn op m s :
  (op = Search -> from_option search_tail True (advance m (world s)).2) ->
  searching s -> searching (spawn op m s).
Proof.
  intros Hm Hs. unfold searching, spawn in *.
  destruct (advance m (world s)) as [w' [t |]]; cbn in *.
  - apply Forall_app. split; [done |]. by apply Forall_singleton.
  - by rewrite app_nil_r.
Qed.

Lemma searching_resume s i op t m :
  searching s ->
  pending s !! i = Some (op, t) ->
  (op = Search -> search_tail t -> from_option search_tail True (advance m (world s)).2) ->
  searching (resume i op m s).
Proof.
  intros Hs Hi Hm. unfold searching, resume in *.
  assert (op = Search -> search_tail t) as Ht.
  { rewrite Forall_lookup in Hs. apply (Hs i (op, t) Hi). }
  destruct (advance m (world s)) as [w' [t' |]]; cbn in *.
  - apply Forall_insert; [done |]. cbn. auto.
  - by apply Forall_delete.
Qed.

Lemma search_tail_resumed t reply w :
  search_tail t ->
  from_option search_tail True
    (advance match t with
             | OnFetch _ k => k reply
             | OnJson resp k => k (json_of resp)
             end w).2.
Proof.
  destruct t as [req k | resp k]; cbn; intros Ht.
  - specialize (Ht reply w). destruct reply as [e | resp].
    + by rewrite Ht.
    + destruct Ht as (k' & -> & Hk'). done.
  - by rewrite Ht.
Qed.

Lemma reachable_searching s : reachable s -> searching s.
Proof.
  induction 1 as [| s s' _ IH Hstep].
  - unfold mounted, onMount. apply searching_spawn; [| by apply Forall_nil].
    intros _. destruct (advance_fetchArticles_tail "" (filters initial_ui)
                          (world (mkSystem (mkWorld initial_ui []) []))) as (k & -> & Hk).
    done.
  - destruct Hstep.
    + by apply searching_spawn.
    + apply searching_spawn; [| done]. intros _. unfold handleSearch.
      destruct (advance_fetchArticles_tail (searchQuery (ui (world s)))
                  (filters (ui (world s))) (world s)) as (k & -> & Hk).
      done.
    + apply searching_spawn; [| done]. intros _. unfold handleFilterChange.
      cbn [mbind Async_bind bind call advance].
      destruct (advance_fetchArticles_tail (searchQuery (ui (world s)))
                  (<[filterType := value]> (filters (ui (world s))))
                  (mkWorld (apply_setter
                              (setFilters (<[filterType := value]> (filters (ui (world s)))))
                              (ui (world s))) (sent (world s))))
        as (k & -> & Hk).
      done.
    + by apply searching_spawn.
    + eapply searching_resume; [done | eassumption |]. intros _ Ht.
      apply (search_tail_resumed (OnFetch req k) reply (world s) Ht).
    + eapply searching_resume; [done | eassumption |]. intros _ Ht.
      apply (search_tail_resumed (OnJson resp k) (Raise NetworkError) (world s) Ht).
Qed.

(** X22.  Nothing fences a search: when its response is there it stores what
    that response holds, or the empty list when the fetch failed, takes the
    loading screen down and ends, whatever was sent or stored since it
    started and whatever else is still in flight. *)
Theorem search_stores_its_response_whatever_happened s i t reply :
  reachable s ->
  pending s !! i = Some (Search, t) ->
  match t, reply with
  | OnFetch _ _, inl _ =>
      settle i reply s = mkSystem (stores (VArray []) (world s)) (delete i (pending s))
  | OnFetch _ _, inr resp =>
      exists k, settle i reply s
                = mkSystem (world s) (<[i := (Search, OnJson resp k)]> (pending s))
  | OnJson resp _, _ =>
      settle i reply s
        = mkSystem (stores (stored_results (Ok resp)) (world s)) (delete i (pending s))
  end.
Proof.
  intros Hs Hi. pose proof (reachable_searching s Hs) as Hall.
  unfold searching in Hall. rewrite Forall_lookup in Hall.
  specialize (Hall i _ Hi eq_refl). cbn in Hall. unfold settle, resume. rewrite Hi.
  destruct t as [req k | resp k].
  - specialize (Hall reply (world s)). destruct reply as [e | resp].
    + by rewrite Hall.
    + destruct Hall as (k' & -> & _). by exists k'.
  - by rewrite (Hall (world s)).
Qed.

End App.

(** * Examples *)

(** With no query and no filter, the request carries [size=20] alone;
    with both, the query comes first and the filters follow in the order
    of the code. *)
Example search_params_samples :
  search_params "" initial_filters = [("size", "20")] /\
  search_params "cricket" (<["bias" := "neutral"]> (<["language" := "hi"]> initial_filters))
    = [("q", "cricket"); ("language", "hi"); ("bias", "neutral"); ("size", "20")].
Proof. split; reflexivity. Qed.

(** Mount, and the backend returns three articles: they are in
    [articles], and [loading] is false. *)
Example mount_loads_three_articles :
  ui (run (answering (VObject [("results", VArray [article_a; article_b; article_c])]))
        (onMount sample_coerce initial_ui) fresh).2
    = mkUI (VArray [article_a; article_b; article_c]) false "" initial_filters false VNull.
Proof. reflexivity. Qed.

(** [sentiment] set to [negative] on the initial filters: one request,
    with [sentiment=negative] and neither [language] nor [bias]. *)
Example filter_change_from_initial_filters :
  sent (run offline (handleFilterChange sample_coerce initial_ui "sentiment" "negative") fresh).2
    = [mkRequest GET "http://localhost:8000/articles/search"
         [("sentiment", "negative"); ("size", "20")]].
Proof. reflexivity. Qed.

(** A search answered with [{results: [A, B]}] stores [[A, B]]; answered
    with [{}] it stores [[]]. *)
Lemma search_stores_results_witness :
  articles (ui (run (answering (VObject [("results", VArray [article_a; article_b])]))
                  (fetchArticles sample_coerce "" initial_filters) fresh).2)
    = VArray [article_a; article_b] /\
  articles (ui (run (answering (VObject []))
                  (fetchArticles sample_coerce "" initial_filters) fresh).2)
    = VArray [].
Proof.
  split.
  - refine (proj1 (search_stores_results sample_coerce
                     (answering (VObject [("results", VArray [article_a; article_b])]))
                     "" initial_filters fresh _ _ eq_refl eq_refl) _ eq_refl _).
    repeat constructor.
  - exact (proj2 (search_stores_results sample_coerce (answering (VObject []))
                    "" initial_filters fresh _ _ eq_refl eq_refl) eq_refl).
Defined.

(** The debugging output reads the keys of the first result: a [null]
    there throws inside the [try], and the search stores nothing. *)
Example null_first_result_clears_results :
  articles (ui (run (answering (VObject [("results", VArray [VNull; article_b])]))
                  (fetchArticles sample_coerce "" initial_filters) fresh).2)
    = VArray [].
Proof. reflexivity. Qed.

(** With the backend down, the search ends with no articles and
    [loading] false. *)
Lemma failed_search_clears_results_witness :
  (run offline (fetchArticles sample_coerce "news" initial_filters) fresh).1 = Ok tt /\
  articles (ui (run offline (fetchArticles sample_coerce "news" initial_filters) fresh).2)
    = VArray [] /\
  loading (ui (run offline (fetchArticles sample_coerce "news" initial_filters) fresh).2)
    = false.
Proof.
  apply (failed_search_clears_results sample_coerce offline "news" initial_filters fresh).
  left. exists NetworkError. reflexivity.
Defined.

(** C4 as stated fails on [{error: ""}], and on [{indexed: 5, error: null}]:
    the status has an [error] field, and the follow-up search is sent all
    the same. *)
Lemma falsy_error_still_refreshes :
  (field "error" [("error", VString "")] = Some (VString "") /\
   sent (run (answering (VObject [("error", VString "")]))
           (ingestArticles sample_coerce initial_ui) fresh).2
     = [ingest_request; search_request "" initial_filters]) /\
  (field "error" [("indexed", VNumber 5); ("error", VNull)] = Some VNull /\
   sent (run (answering (VObject [("indexed", VNumber 5); ("error", VNull)]))
           (ingestArticles sample_coerce initial_ui) fresh).2
     = [ingest_request; search_request "" initial_filters]).
Proof. repeat split; reflexivity. Qed.

(** [{indexed: 5}] is recorded and followed by one search; [{error: "x"}]
    is recorded and followed by none. *)
Lemma ingest_records_status_and_refreshes_witness :
  sent (run (answering (VObject [("indexed", VNumber 5)]))
          (ingestArticles sample_coerce initial_ui) fresh).2
    = [ingest_request; search_request "" initial_filters] /\
  sent (run (answering (VObject [("error", VString "x")]))
          (ingestArticles sample_coerce initial_ui) fresh).2
    = [ingest_request] /\
  ingestStatus (ui (run (answering (VObject [("error", VString "x")]))
                      (ingestArticles sample_coerce initial_ui) fresh).2)
    = VObject [("error", VString "x")].
Proof.
  split; [| split].
  - exact (proj1 (proj2 (ingest_records_status_and_refreshes sample_coerce
             (answering (VObject [("indexed", VNumber 5)])) fresh _ _ eq_refl eq_refl))).
  - exact (proj1 (proj2 (ingest_records_status_and_refreshes sample_coerce
             (answering (VObject [("error", VString "x")])) fresh _ _ eq_refl eq_refl))).
  - exact (proj1 (ingest_records_status_and_refreshes sample_coerce
             (answering (VObject [("error", VString "x")])) fresh _ _ eq_refl eq_refl)).
Defined.


(** An ingestion that the backend refuses leaves the articles alone. *)
Lemma ingest_leaves_results_to_search_witness :
  articles (ui (run (answering (VObject [("error", VString "x")]))
                  (ingestArticles sample_coerce initial_ui) fresh).2)
    = articles (ui fresh).
Proof.
  apply (proj2 (ingest_leaves_results_to_search sample_coerce
                  (answering (VObject [("error", VString "x")])) fresh)).
  reflexivity.
Defined.

(** After the mount, the first search failing, and a click on the ingest
    button: one ingestion in flight, and the button is disabled. *)
Lemma one_ingest_at_a_time_witness :
  ingesting (ui (world (click_ingest sample_coerce
                          (settle 0 (Raise NetworkError) (mounted sample_coerce))))) = true /\
  in_flight Ingest (click_ingest sample_coerce
                      (settle 0 (Raise NetworkError) (mounted sample_coerce))) = 1 /\
  can_click_ingest (ui (world (click_ingest sample_coerce
                                 (settle 0 (Raise NetworkError) (mounted sample_coerce)))))
    = false.
Proof.
  assert (reachable sample_coerce
            (click_ingest sample_coerce
               (settle 0 (Raise NetworkError) (mounted sample_coerce)))) as Hreach.
  { eapply reachable_step.
    - eapply reachable_step; [apply reachable_mounted |].
      eapply (step_fetch_settles sample_coerce (mounted sample_coerce) 0). reflexivity.
    - apply (step_click_ingest sample_coerce
               (settle 0 (Raise NetworkError) (mounted sample_coerce))).
      reflexivity. }
  pose proof (one_ingest_at_a_time sample_coerce _ Hreach) as (_ & Hclick & Hcount & _).
  split; [reflexivity |]. split; [exact Hcount |]. apply Hclick. reflexivity.
Defined.

(** The refresh of an ingestion is a closure of the render that was
    clicked: a filter chosen while the ingestion is in flight is in
    [filters] when the refresh runs, and not in its request. *)
Example refresh_searches_with_the_filters_of_the_click :
  let s1 := click_ingest sample_coerce (settle 0 (Raise NetworkError) (mounted sample_coerce)) in
  let s2 := settle 1 (Raise NetworkError) (change_filter sample_coerce "language" "hi" s1) in
  let s3 := settle 0 (Raise NetworkError)
              (settle 0 (Ok (mkResponse (Some (VObject [("indexed", VNumber 1)])))) s2) in
  filters (ui (world s3)) !! "language" = Some "hi" /\
  last (sent (world s3))
    = Some (mkRequest GET "http://localhost:8000/articles/search" [("size", "20")]).
Proof. split; reflexivity. Qed.

(** Eight entities: six tags and [+2 more]. *)
Lemma entities_section_shows_first_six_witness :
  entities_section sample_coerce article_c =
    Ok (Elem "div" "entities"
          [ Elem "strong" "" [Text "Key Entities:"];
            Elem "div" "entity-tags"
              [ Items (shown_tag <$>
                         [entity "Delhi" "LOC"; entity "Mumbai" "LOC"; entity "ISRO" "ORG";
                          entity "RBI" "ORG"; entity "Ganga" "LOC"; entity "Kerala" "LOC"]);
                Elem "span" "entity-tag more" [Text "+"; Num 2; Text " more"] ] ]).
Proof.
  refine (proj1 (proj1 (entities_section_shows_first_six sample_coerce article_c eq_refl)
                   _ eq_refl _ _)).
  - discriminate.
  - repeat constructor.
Defined.

(** A score of [0.875], a score of [0], and no score. *)
Lemma zero_score_is_printed_witness :
  sentiment_badge_children sample_coerce sample_toFixed article_d
    = Ok [Text "Sentiment: "; Expr (VString "positive"); Expr (VString " (87.5%)")] /\
  sentiment_badge_children sample_coerce sample_toFixed article_a
    = Ok [Text "Sentiment: "; Expr (VString "neutral"); Expr (VNumber 0)] /\
  sentiment_badge_children sample_coerce sample_toFixed article_b
    = Ok [Text "Sentiment: "; Expr (VString "neutral"); Expr VUndefined].
Proof.
  split; [| split].
  - exact (proj1 (zero_score_is_printed sample_coerce sample_toFixed
             [("title", VString "D"); ("sentiment_overall", VString "positive");
              ("sentiment_score", VNumber 0.875)]) 0.875%float eq_refl).
  - exact (proj1 (zero_score_is_printed sample_coerce sample_toFixed
             [("title", VString "A"); ("sentiment_overall", VString "neutral");
              ("sentiment_score", VNumber 0)]) 0%float eq_refl).
  - exact (proj1 (proj2 (zero_score_is_printed sample_coerce sample_toFixed
             [("title", VString "B"); ("sentiment_overall", VString "neutral")])) eq_refl).
Defined.

(** ** Further examples *)

(** [{results: [null, B]}]: nothing is stored. *)
Lemma null_first_result_drops_the_response_witness :
  articles (ui (run (answering (VObject [("results", VArray [VNull; article_b])]))
                  (fetchArticles sample_coerce "" initial_filters) fresh).2)
    = VArray [].
Proof.
  exact (null_first_result_drops_the_response sample_coerce
           (answering (VObject [("results", VArray [VNull; article_b])]))
           "" initial_filters fresh _ _ [article_b] eq_refl eq_refl eq_refl).
Defined.

(** [{results: "none"}]: the string is stored, and the list throws. *)
Lemma results_that_are_no_list_break_the_render_witness :
  articles (ui (run (answering (VObject [("results", VString "none")]))
                  (fetchArticles sample_coerce "" initial_filters) fresh).2)
    = VString "none" /\
  article_list sample_coerce sample_toFixed sample_stringify sample_toUpperCase
    sample_toLocaleDateString
    (articles (ui (run (answering (VObject [("results", VString "none")]))
                     (fetchArticles sample_coerce "" initial_filters) fresh).2))
    = Raise TypeError.
Proof.
  exact (results_that_are_no_list_break_the_render sample_coerce sample_toFixed
           sample_stringify sample_toUpperCase sample_toLocaleDateString
           (answering (VObject [("results", VString "none")]))
           "" initial_filters fresh _ (VObject [("results", VString "none")])
           eq_refl eq_refl eq_refl eq_refl eq_refl).
Defined.

(** [{results: [A, null]}]: both are stored, and the list throws. *)
Lemma null_article_is_stored_and_breaks_the_render_witness :
  articles (ui (run (answering (VObject [("results", VArray [article_a; VNull])]))
                  (fetchArticles sample_coerce "" initial_filters) fresh).2)
    = VArray [article_a; VNull] /\
  exists e,
    article_list sample_coerce sample_toFixed sample_stringify sample_toUpperCase
      sample_toLocaleDateString
      (articles (ui (run (answering (VObject [("results", VArray [article_a; VNull])]))
                       (fetchArticles sample_coerce "" initial_filters) fresh).2))
      = Raise e.
Proof.
  exact (null_article_is_stored_and_breaks_the_render sample_coerce sample_toFixed
           sample_stringify sample_toUpperCase sample_toLocaleDateString
           (answering (VObject [("results", VArray [article_a; VNull])]))
           "" initial_filters fresh _ (VObject [("results", VArray [article_a; VNull])])
           [article_a; VNull] article_a 1 eq_refl eq_refl eq_refl eq_refl eq_refl eq_refl).
Defined.

(** [sentiment] set to [negative] while [language] is [hi]: the request
    has [sentiment=negative], and keeps [language=hi]. *)
Lemma filter_change_updates_one_parameter_witness :
  (("sentiment", "negative")
     ∈ params (search_request "" (<["sentiment" := "negative"]>
                                    (<["language" := "hi"]> initial_filters))) <->
   ("sentiment" = "sentiment" /\ "negative" = "negative" /\ "negative" <> "") \/
   ("sentiment" <> "sentiment" /\
    ("sentiment", "negative")
      ∈ params (search_request "" (<["language" := "hi"]> initial_filters)))) /\
  (("language", "hi")
     ∈ params (search_request "" (<["sentiment" := "negative"]>
                                    (<["language" := "hi"]> initial_filters))) <->
   ("language" = "sentiment" /\ "hi" = "negative" /\ "negative" <> "") \/
   ("language" <> "sentiment" /\
    ("language", "hi")
      ∈ params (search_request "" (<["language" := "hi"]> initial_filters)))).
Proof.
  assert ("sentiment" ∈ ["language"; "sentiment"; "bias"]) as Hfield
    by (apply list_elem_of_further, list_elem_of_here).
  split.
  - exact (filter_change_updates_one_parameter ""
             (<["language" := "hi"]> initial_filters) "sentiment" "negative" Hfield
             "sentiment" "negative").
  - exact (filter_change_updates_one_parameter ""
             (<["language" := "hi"]> initial_filters) "sentiment" "negative" Hfield
             "language" "hi").
Defined.

(** An ingestion answered with [{indexed: 5}] on a fresh page. *)
Lemma ingest_refreshes_like_a_search_witness :
  sent (run (answering (VObject [("indexed", VNumber 5)]))
          (ingestArticles sample_coerce initial_ui) fresh).2
    = sent fresh ++ [ingest_request;
                     search_request (searchQuery initial_ui) (filters initial_ui)] /\
  articles (ui (run (answering (VObject [("indexed", VNumber 5)]))
                  (ingestArticles sample_coerce initial_ui) fresh).2)
    = articles (ui (run (answering (VObject [("indexed", VNumber 5)]))
                      (fetchArticles sample_coerce (searchQuery initial_ui)
                         (filters initial_ui))
                      (mkWorld (ui fresh) (sent fresh ++ [ingest_request]))).2) /\
  ingestStatus (ui (run (answering (VObject [("indexed", VNumber 5)]))
                      (ingestArticles sample_coerce initial_ui) fresh).2)
    = VObject [("indexed", VNumber 5)] /\
  ingesting (ui (run (answering (VObject [("indexed", VNumber 5)]))
                   (ingestArticles sample_coerce initial_ui) fresh).2) = false /\
  loading (ui (run (answering (VObject [("indexed", VNumber 5)]))
                 (ingestArticles sample_coerce initial_ui) fresh).2) = false /\
  filters (ui (run (answering (VObject [("indexed", VNumber 5)]))
                 (ingestArticles sample_coerce initial_ui) fresh).2) = filters (ui fresh).
Proof.
  exact (ingest_refreshes_like_a_search sample_coerce
           (answering (VObject [("indexed", VNumber 5)])) initial_ui fresh _ _
           eq_refl eq_refl eq_refl eq_refl).
Defined.


(** The banner after an ingestion with the backend down. *)
Lemma failed_ingest_shows_the_synthetic_error_witness :
  status_banner sample_stringify
    (ingestStatus (ui (run offline (ingestArticles sample_coerce initial_ui) fresh).2))
    = Ok (Elem "div" "status error" [Expr (VString "Failed to ingest articles")]).
Proof.
  apply (failed_ingest_shows_the_synthetic_error sample_coerce sample_stringify offline
           initial_ui fresh).
  left. exists NetworkError. reflexivity.
Defined.

(** The banner after [{error: "quota"}], after [{indexed: 5}], and after
    [{}]. *)
Lemma banner_shows_the_error_or_the_count_witness :
  status_banner sample_stringify
    (ingestStatus (ui (run (answering (VObject [("error", VString "quota")]))
                         (ingestArticles sample_coerce initial_ui) fresh).2))
    = Ok (Elem "div" "status error" [Expr (VString "quota")]) /\
  status_banner sample_stringify
    (ingestStatus (ui (run (answering (VObject [("indexed", VNumber 5)]))
                         (ingestArticles sample_coerce initial_ui) fresh).2))
    = Ok (Elem "div" "status success"
            [Expr (VString "Successfully ingested 5 articles")]) /\
  status_banner sample_stringify
    (ingestStatus (ui (run (answering (VObject []))
                         (ingestArticles sample_coerce initial_ui) fresh).2))
    = Ok (Elem "div" "status success"
            [Expr (VString "Successfully ingested undefined articles")]).
Proof.
  split; [| split].
  - refine (proj1 (banner_shows_the_error_or_the_count sample_coerce sample_stringify
                     (answering (VObject [("error", VString "quota")])) initial_ui fresh
                     _ _ eq_refl eq_refl eq_refl) "quota" eq_refl _).
    discriminate.
  - exact (proj1 (proj2 (banner_shows_the_error_or_the_count sample_coerce sample_stringify
                           (answering (VObject [("indexed", VNumber 5)])) initial_ui fresh
                           _ _ eq_refl eq_refl eq_refl)) eq_refl).
  - exact (proj2 (proj2 (banner_shows_the_error_or_the_count sample_coerce sample_stringify
                           (answering (VObject [])) initial_ui fresh
                           _ _ eq_refl eq_refl eq_refl)) eq_refl eq_refl).
Defined.

(** Two articles that differ in their seventh and eighth entities. *)
Lemma entities_beyond_the_sixth_are_not_read_witness :
  entities_section sample_coerce article_c = entities_section sample_coerce article_h.
Proof.
  exact (entities_beyond_the_sixth_are_not_read sample_coerce article_c article_h _ _
           eq_refl eq_refl eq_refl eq_refl eq_refl eq_refl).
Defined.

(** An article whose second entity is [null]. *)
Lemma null_entity_breaks_the_section_witness :
  entities_section sample_coerce
    (VObject [("entities", VArray [entity "Delhi" "LOC"; VNull])])
    = Raise TypeError.
Proof.
  apply (null_entity_breaks_the_section sample_coerce
           (VObject [("entities", VArray [entity "Delhi" "LOC"; VNull])])
           [entity "Delhi" "LOC"; VNull] 1).
  - reflexivity.
  - reflexivity.
  - lia.
  - reflexivity.
Defined.

(** An article with a title, a bias, a language, a score and one entity,
    and nothing else. *)
Lemma article_with_plain_fields_gets_its_card_witness :
  exists header meta debug badges summary entities,
    article_header article_e = Ok header /\
    article_meta sample_toLocaleDateString article_e = Ok meta /\
    article_debug article_e = Ok debug /\
    analysis_badges sample_coerce sample_toFixed sample_stringify sample_toUpperCase
      article_e = Ok badges /\
    summary_section article_e = Ok summary /\
    entities_section sample_coerce article_e = Ok entities /\
    article_card sample_coerce sample_toFixed sample_stringify sample_toUpperCase
      sample_toLocaleDateString article_e
    = Ok (Elem "div" "article-card" [header; meta; debug; badges; summary; entities]) /\
    renders (Elem "div" "article-card" [header; meta; debug; badges; summary; entities])
      = true.
Proof.
  apply (article_with_plain_fields_gets_its_card sample_coerce sample_toFixed
           sample_stringify sample_toUpperCase sample_toLocaleDateString article_e).
  - reflexivity.
  - reflexivity.
  - reflexivity.
  - reflexivity.
  - reflexivity.
  - reflexivity.
  - reflexivity.
  - reflexivity.
  - reflexivity.
  - exists "Invalid Date". reflexivity.
  - right. exists [entity "Delhi" "LOC"]. split; [reflexivity |].
    repeat constructor.
Defined.

(** An article whose language is the number 5. *)
Lemma label_that_is_no_text_breaks_the_card_witness :
  exists e,
    article_card sample_coerce sample_toFixed sample_stringify sample_toUpperCase
      sample_toLocaleDateString article_f
    = Raise e.
Proof.
  apply (label_that_is_no_text_breaks_the_card sample_coerce sample_toFixed
           sample_stringify sample_toUpperCase sample_toLocaleDateString article_f
           "language").
  - reflexivity.
  - apply list_elem_of_further, list_elem_of_here.
  - reflexivity.
  - reflexivity.
Defined.

(** The class of a left-leaning article, and of one without a bias. *)
Lemma bias_class_drops_one_hyphen_witness :
  bias_badge_class article_e = Ok "badge bias-leftleaning" /\
  bias_badge_class article_b = Ok "badge bias-unknown".
Proof.
  split.
  - exact (proj1 (bias_class_drops_one_hyphen article_e "left" "leaning" eq_refl eq_refl)
             eq_refl).
  - exact (proj2 (proj2 (bias_class_drops_one_hyphen article_b "" "" eq_refl eq_refl))
             eq_refl).
Defined.

(** An article that has a title and a sentiment, and nothing else. *)
Lemma missing_text_falls_back_witness :
  exists title source summary,
    article_header article_b
      = Ok (Elem "div" "article-header"
              [ Elem "h2" "" [Expr (VString title)];
                Elem "a" "external-link" [Text "ðŸ”—"] ]) /\
    article_meta sample_toLocaleDateString article_b
      = Ok (Elem "div" "article-meta"
              [ Elem "span" "source" [Expr (VString source)];
                Expr (read article_b "published_date") ]) /\
    summary_section article_b
      = Ok (Elem "div" "summary"
              [Elem "strong" "" [Text "Summary:"]; Elem "p" "" [summary]]) /\
    title <> "" /\ source <> "" /\ blank summary = false /\
    (forall text, read article_b "title" = VString text -> text <> "" -> title = text) /\
    (truthy (read article_b "title") = false -> title = "Untitled") /\
    (forall text, read article_b "source_name" = VString text -> text <> "" ->
                  source = text) /\
    (truthy (read article_b "source_name") = false -> source = "Unknown Source") /\
    (forall text, read article_b "summary" = VString text -> text <> "" ->
                  summary = Expr (VString text)) /\
    (truthy (read article_b "summary") = false -> summary = Text "No summary available").
Proof.
  apply (missing_text_falls_back sample_toLocaleDateString article_b); reflexivity.
Defined.

(** An article whose date and entities are [0], and a status that is [0]. *)
Lemma falsy_numbers_pass_the_guards_witness :
  article_meta sample_toLocaleDateString article_g
    = Ok (Elem "div" "article-meta"
            [ Elem "span" "source" [Expr (VString "Unknown Source")];
              Expr (VNumber 0) ]) /\
  entities_section sample_coerce article_g = Ok (Expr (VNumber 0)) /\
  status_banner sample_stringify (VNumber 0) = Ok (Expr (VNumber 0)) /\
  blank (Expr (VNumber 0)) = false.
Proof.
  pose proof (falsy_numbers_pass_the_guards sample_coerce sample_stringify
                sample_toLocaleDateString article_g 0%float eq_refl eq_refl)
    as (Hdate & Hentities & Hstatus & Hprinted).
  split; [exact (Hdate eq_refl) |]. split; [exact (Hentities eq_refl) |].
  split; [exact Hstatus | exact Hprinted].
Defined.

(** After the mount, the first search failing, and [hi] chosen as the
    language: two searches were sent, the second with [language=hi]. *)
Lemma only_expected_requests_are_sent_witness :
  valid_filters
    (filters (ui (world (change_filter sample_coerce "language" "hi"
                           (settle 0 (Raise NetworkError) (mounted sample_coerce)))))) /\
  forall req,
    req ∈ sent (world (change_filter sample_coerce "language" "hi"
                         (settle 0 (Raise NetworkError) (mounted sample_coerce)))) ->
    req = ingest_request \/
    (method req = GET /\
     url req = "http://localhost:8000/articles/search" /\
     forall k v, (k, v) ∈ params req ->
       v <> "" /\ (k = "q" \/ (k = "size" /\ v = "20") \/ offers k v)).
Proof.
  apply (only_expected_requests_are_sent sample_coerce).
  eapply reachable_step.
  - eapply reachable_step; [apply reachable_mounted |].
    eapply (step_fetch_settles sample_coerce (mounted sample_coerce) 0). reflexivity.
  - apply (step_filter_change sample_coerce
             (settle 0 (Raise NetworkError) (mounted sample_coerce)) "language" "hi").
    + reflexivity.
    + exists [""; "en"; "hi"]. split.
      * apply list_elem_of_here.
      * apply list_elem_of_further, list_elem_of_further, list_elem_of_here.
Defined.

(** Right after the mount the loading screen is up, and the first search
    is what will take it down. *)
Lemma loading_screen_is_accounted_for_witness :
  exists i op t,
    pending (mounted sample_coerce) !! i = Some (op, t) /\ rest_of Unloading t.
Proof.
  apply (loading_screen_is_accounted_for sample_coerce (mounted sample_coerce)).
  - apply reachable_mounted.
  - reflexivity.
Defined.

(** After the mount, the first search failing, and a click on Search: one
    search in flight, behind the loading screen. *)
Lemma searches_do_not_overlap_witness :
  length (pending (click_search sample_coerce
                     (settle 0 (Raise NetworkError) (mounted sample_coerce))))
    = (if loading (ui (world (click_search sample_coerce
                                (settle 0 (Raise NetworkError) (mounted sample_coerce)))))
       then 1 else 0) /\
  in_flight Search (click_search sample_coerce
                      (settle 0 (Raise NetworkError) (mounted sample_coerce)))
    = length (pending (click_search sample_coerce
                         (settle 0 (Raise NetworkError) (mounted sample_coerce)))).
Proof.
  assert (browsing sample_coerce (settle 0 (Raise NetworkError) (mounted sample_coerce)))
    as Hfailed.
  { apply (browsing_step sample_coerce (mounted sample_coerce));
      [apply browsing_mounted | | reflexivity].
    eapply (step_fetch_settles sample_coerce (mounted sample_coerce) 0). reflexivity. }
  apply (searches_do_not_overlap sample_coerce).
  apply (browsing_step sample_coerce
           (settle 0 (Raise NetworkError) (mounted sample_coerce)));
    [exact Hfailed | | reflexivity].
  apply (step_search sample_coerce (settle 0 (Raise NetworkError) (mounted sample_coerce))).
  reflexivity.
Defined.

(** The first search failing: the empty list is stored, the loading
    screen goes, and nothing is left in flight. *)
Lemma search_stores_its_response_whatever_happened_witness :
  settle 0 (Raise NetworkError) (mounted sample_coerce)
    = mkSystem (stores (VArray []) (world (mounted sample_coerce)))
        (delete 0 (pending (mounted sample_coerce))).
Proof.
  exact (search_stores_its_response_whatever_happened sample_coerce
           (mounted sample_coerce) 0 _ (Raise NetworkError)
           (reachable_mounted sample_coerce) eq_refl).
Defined.

(** With an ingestion in between, searches do overlap, and the response
    that comes last wins: once the refresh is done the page shows [[B]]
    with no loading screen, although the search of the click is still in
    flight; when that one is answered, the page shows [[A]], the results
    of the request that was sent first. *)
Example stale_search_overwrites_the_refresh :
  reachable sample_coerce (race_over sample_coerce) /\
  sent (world (race_over sample_coerce))
    = [search_request "" initial_filters; ingest_request;
       search_request "" initial_filters; search_request "" initial_filters] /\
  articles (ui (world (race_refreshed sample_coerce))) = VArray [article_b] /\
  loading (ui (world (race_refreshed sample_coerce))) = false /\
  in_flight Search (race_refreshed sample_coerce) = 1 /\
  articles (ui (world (race_over sample_coerce))) = VArray [article_a] /\
  pending (race_over sample_coerce) = [].
Proof.
  split; [| repeat split; reflexivity].
  unfold race_over, race_refreshed, race_refreshing, race_started.
  repeat match goal with
         | |- reachable _ (mounted _) => apply reachable_mounted
         | |- reachable _ (settle 0 ?r ?s) =>
             apply (reachable_step sample_coerce s (settle 0 r s));
             [| first [ eapply (step_fetch_settles sample_coerce s 0); reflexivity
                      | eapply (step_json_settles sample_coerce s 0); reflexivity ] ]
         | |- reachable _ (click_search _ ?s) =>
             apply (reachable_step sample_coerce s (click_search sample_coerce s));
             [| apply step_search; reflexivity ]
         | |- reachable _ (click_ingest _ ?s) =>
             apply (reachable_step sample_coerce s (click_ingest sample_coerce s));
             [| apply step_click_ingest; reflexivity ]
         end.
Qed.
